(** * Job-Portal backend: the user and company routers

    A shallow embedding of [backend/src/routes/user.ts],
    [backend/src/routes/company.ts] and the tables of
    [backend/prisma/schema.prisma], followed by the properties of the
    application lifecycle and of the authorization checks.

    Conventions.
    - A table is the list of its rows, in storage order.
    - A route handler is a function from the store to a response and a new
      store.  Inside the [try] block a handler either goes on, answers early
      ([return c.json(...)]) or throws; the [catch] turns a throw into the
      route's 500 answer.
    - Values read from a JSON body are kept as JSON values until Prisma or
      bcrypt requires a string.
    - The schemas of [../Validation], [bcrypt.hash] and the JWT functions are
      not part of the two routers: they are variables of the section
      [Routers]. *)

From Stdlib Require Import String Ascii List ZArith NArith Bool Lia.
From Stdlib Require Import Sorting.Sorted Sorting.Permutation.
Import ListNotations.
Local Open Scope string_scope.
Local Open Scope list_scope.

(* ================================================================== *)
(** ** Strings as JavaScript and Postgres use them here *)

(** [hay.includes(needle)]: [needle] occurs in [hay] as a contiguous run. *)
Fixpoint includes (needle hay : string) : bool :=
  if String.prefix needle hay then true
  else match hay with
       | EmptyString => false
       | String _ rest => includes needle rest
       end.

(** Lower-casing of the letters A-Z; every other byte is left alone. *)
Definition lower_ascii (c : ascii) : ascii :=
  let n := N_of_ascii c in
  if ((65 <=? n) && (n <=? 90))%N then ascii_of_N (n + 32) else c.

Fixpoint lower (s : string) : string :=
  match s with
  | EmptyString => EmptyString
  | String c rest => String (lower_ascii c) (lower rest)
  end.

(** Prisma's [{ contains: needle, mode: 'insensitive' }] on a text column. *)
Definition contains_insensitive (needle hay : string) : bool :=
  includes (lower needle) (lower hay).

(* ================================================================== *)
(** ** JSON values of a request body *)

Inductive jsval :=
| JUndefined                 (* the key is absent *)
| JNull
| JBool (b : bool)
| JNum (n : Z)
| JStr (s : string)
| JArray                     (* contents are never inspected by the routes *)
| JObject.

(** JavaScript truthiness, as [if (name)] and [a || b] use it. *)
Definition truthy (v : jsval) : bool :=
  match v with
  | JUndefined | JNull => false
  | JBool b => b
  | JNum n => negb (n =? 0)%Z
  | JStr s => negb (s =? "")
  | JArray | JObject => true
  end.

Definition json_object := list (string * jsval).

(** [const { k } = obj]: the first binding of [k], [undefined] when absent. *)
Fixpoint field (o : json_object) (k : string) : jsval :=
  match o with
  | [] => JUndefined
  | (k', v) :: rest => if k' =? k then v else field rest k
  end.

(* ================================================================== *)
(** ** The schema (schema.prisma) *)

Inductive Role := Recruiter | Candidate.

Inductive applicationStatus := Rejected | Applied | Interviewing | Hired.

Definition Role_eqb (a b : Role) : bool :=
  match a, b with
  | Recruiter, Recruiter | Candidate, Candidate => true
  | _, _ => false
  end.

Definition Role_of_string (s : string) : option Role :=
  if s =? "Recruiter" then Some Recruiter
  else if s =? "Candidate" then Some Candidate
  else None.

Definition applicationStatus_name (s : applicationStatus) : string :=
  match s with
  | Rejected => "Rejected"
  | Applied => "Applied"
  | Interviewing => "Interviewing"
  | Hired => "Hired"
  end.

Definition applicationStatus_of_string (s : string) : option applicationStatus :=
  if s =? "Rejected" then Some Rejected
  else if s =? "Applied" then Some Applied
  else if s =? "Interviewing" then Some Interviewing
  else if s =? "Hired" then Some Hired
  else None.

Module User.
Record t := mk {
  id : string;
  fullName : string;
  email : string;
  password : string;
  role : Role
}.
End User.

Module Company.
Record t := mk {
  id : string;
  name : string;
  logo : string
}.
End Company.

Module Job.
Record t := mk {
  id : string;
  recruiterId : string;
  companyId : option string;
  title : string;
  description : string;
  location : string;
  type : string;
  requirement : string;
  isOpen : bool;
  createdAt : Z
}.
End Job.

Module SavedJobs.
Record t := mk {
  id : string;
  userId : string;
  jobId : string
}.
End SavedJobs.

Module jobApplication.
Record t := mk {
  id : string;
  applicantId : string;
  jobId : option string;
  status : option applicationStatus;
  isApplied : bool;
  resume : string;
  skills : string;
  experience : string;
  education : string;
  createdAt : Z
}.

Definition set_status (st : option applicationStatus) (a : t) : t :=
  mk (id a) (applicantId a) (jobId a) st (isApplied a)
     (resume a) (skills a) (experience a) (education a) (createdAt a).
End jobApplication.

(** The database: one list of rows per model. *)
Record Store := mkStore {
  users : list User.t;
  companies : list Company.t;
  jobs : list Job.t;
  savedJobs : list SavedJobs.t;
  jobApplications : list jobApplication.t
}.

Definition with_users (us : list User.t) (s : Store) : Store :=
  mkStore us (companies s) (jobs s) (savedJobs s) (jobApplications s).

Definition with_companies (cs : list Company.t) (s : Store) : Store :=
  mkStore (users s) cs (jobs s) (savedJobs s) (jobApplications s).

Definition with_jobApplications (apps : list jobApplication.t) (s : Store) : Store :=
  mkStore (users s) (companies s) (jobs s) (savedJobs s) apps.

(** What the column defaults draw for one insert: [uuid()] and [now()]. *)
Record Defaults := mkDefaults {
  uuid : string;
  now : Z
}.

(* ================================================================== *)
(** ** Responses *)

(** The [select] of the sign-up route: a user without the password. *)
Record PublicUser := mkPublicUser {
  pu_id : string;
  pu_email : string;
  pu_fullName : string;
  pu_role : Role
}.

(** An application with [include: { applicant: true, job: true }]. *)
Record ApplicationWithRelations := mkJoined {
  application_row : jobApplication.t;
  applicant : option User.t;
  job : option Job.t
}.

Inductive Data :=
| NoData
| ErrorDetail (detail : string)        (* error: error.message *)
| ValidationIssues                     (* error: the zod issues *)
| SignedUp (user : PublicUser) (token : string)
| UserList (users : list User.t)
| UpdatedUser (user : User.t)
| CreatedApplication (application : jobApplication.t)
| ApplicationList (applications : list ApplicationWithRelations)
| UpdatedStatus (updatedStatus : jobApplication.t)
| CreatedCompany (company : Company.t).

Inductive Body :=
| Msg (msg : string)                                        (* { msg } *)
| Result (success : bool) (message : string) (data : Data). (* { success, message, ... } *)

Record Response := mkResponse {
  status : nat;
  body : Body
}.

(* ================================================================== *)
(** ** The handler monad: state, early answer, exception *)

Inductive outcome (A : Type) :=
| Next (a : A)
| Respond (r : Response)
| Throw (msg : string).
Arguments Next {A} a.
Arguments Respond {A} r.
Arguments Throw {A} msg.

Definition handler (A : Type) := Store -> outcome A * Store.

Definition ret {A} (a : A) : handler A := fun s => (Next a, s).

Definition bind {A B} (m : handler A) (k : A -> handler B) : handler B :=
  fun s =>
    match m s with
    | (Next a, s') => k a s'
    | (Respond r, s') => (Respond r, s')
    | (Throw e, s') => (Throw e, s')
    end.

Definition respond {A} (r : Response) : handler A := fun s => (Respond r, s).

Definition throw {A} (msg : string) : handler A := fun s => (Throw msg, s).

Declare Scope handler_scope.
Delimit Scope handler_scope with handler.
Notation "x <- m ;; k" := (bind m (fun x => k))
  (at level 100, m at next level, right associativity) : handler_scope.
Local Open Scope handler_scope.

(** [c.json(body, code)]. *)
Definition json (b : Body) (code : nat) : Response := mkResponse code b.

(** [try { h } catch (error) { return on_error(error.message) }]. *)
Definition try_catch (h : handler Response) (on_error : string -> Response)
  : Store -> Response * Store :=
  fun s =>
    match h s with
    | (Next r, s') => (r, s')
    | (Respond r, s') => (r, s')
    | (Throw e, s') => (on_error e, s')
    end.

(** [await c.req.json()]: throws when the body is not a JSON object. *)
Definition req_json (raw : option json_object) : handler json_object :=
  match raw with
  | Some o => ret o
  | None => throw "Unexpected end of JSON input"
  end.

(* ================================================================== *)
(** ** The Prisma client, one function per call shape the routers use

    In a [where], an [undefined] value means "no condition on this column"
    for [findFirst], and is refused by [findUnique], [update] and [delete],
    which need their unique key.  In [data], a value of the wrong type, a
    missing required column and a key that is not a column of the model are
    refused.  A refusal is thrown. *)

(** A [where] condition on a text column: [None] is [undefined]. *)
Definition where_eq (cond : option string) (column : string) : bool :=
  match cond with
  | None => true
  | Some v => column =? v
  end.

(** A required text column of [data]. *)
Definition data_string {A} (column : string) (v : jsval) (k : string -> handler A)
  : handler A :=
  match v with
  | JStr s => k s
  | _ => throw ("Argument `" ++ column ++ "` is missing or is not a String")
  end.

(** [prisma.user.findUnique({ where: { email } })]. *)
Definition prisma_user_findUnique_email (email : jsval) : handler (option User.t) :=
  fun s =>
    match email with
    | JStr e => (Next (find (fun u => User.email u =? e) (users s)), s)
    | _ => (Throw "Argument `where` needs at least one of `id` or `email`", s)
    end.

(** [prisma.user.findFirst({ where: { id, role } })]. *)
Definition prisma_user_findFirst (id : option string) (role : Role)
  : handler (option User.t) :=
  fun s =>
    (Next (find (fun u => where_eq id (User.id u) && Role_eqb (User.role u) role)
                (users s)), s).

(** [prisma.user.findMany({ where: { OR: [{ fullName: { contains: filter,
    mode: 'insensitive' } }, { email: { contains: filter, mode:
    'insensitive' } }] } })]: whole rows, no [select]. *)
Definition prisma_user_findMany_contains (filter_ : string) : handler (list User.t) :=
  fun s =>
    (Next (filter (fun u => contains_insensitive filter_ (User.fullName u)
                            || contains_insensitive filter_ (User.email u))
                  (users s)), s).

(** [prisma.user.create({ data: { email, password, fullName, role } })]:
    [id] takes its default; [id] and [email] are [@unique]. *)
Definition prisma_user_create (d : Defaults) (email : jsval) (password : string)
    (fullName role : jsval) : handler User.t :=
  data_string "email" email (fun e =>
  data_string "fullName" fullName (fun n =>
  data_string "role" role (fun r =>
  match Role_of_string r with
  | None => throw "Invalid value for argument `role`. Expected Role"
  | Some r' =>
      fun s =>
        if existsb (fun u => User.id u =? uuid d) (users s)
        then (Throw "Unique constraint failed on the fields: (`id`)", s)
        else if existsb (fun u => User.email u =? e) (users s)
        then (Throw "Unique constraint failed on the fields: (`email`)", s)
        else let u := User.mk (uuid d) n e password r' in
             (Next u, with_users (users s ++ [u]) s)
  end))).

(** The scalar columns of [User]. *)
Definition User_columns : list string :=
  ["id"; "fullName"; "email"; "password"; "role"].

(** One assignment of an update's [data]; [None] when Prisma refuses it. *)
Definition User_assign (u : User.t) (kv : string * jsval) : option User.t :=
  let (k, v) := kv in
  if negb (existsb (String.eqb k) User_columns) then None
  else match v with
       | JUndefined => Some u
       | JStr s =>
           if k =? "id" then
             Some (User.mk s (User.fullName u) (User.email u) (User.password u) (User.role u))
           else if k =? "fullName" then
             Some (User.mk (User.id u) s (User.email u) (User.password u) (User.role u))
           else if k =? "email" then
             Some (User.mk (User.id u) (User.fullName u) s (User.password u) (User.role u))
           else if k =? "password" then
             Some (User.mk (User.id u) (User.fullName u) (User.email u) s (User.role u))
           else
             match Role_of_string s with
             | Some r =>
                 Some (User.mk (User.id u) (User.fullName u) (User.email u) (User.password u) r)
             | None => None
             end
       | _ => None
       end.

Fixpoint User_assign_all (u : User.t) (data : json_object) : option User.t :=
  match data with
  | [] => Some u
  | kv :: rest =>
      match User_assign u kv with
      | Some u' => User_assign_all u' rest
      | None => None
      end
  end.

(** The rows of a table with the row of key [i] replaced by [u']. *)
Definition replace_user (i : string) (u' : User.t) (us : list User.t) : list User.t :=
  map (fun u => if User.id u =? i then u' else u) us.

Fixpoint distinct (l : list string) : bool :=
  match l with
  | [] => true
  | x :: rest => negb (existsb (String.eqb x) rest) && distinct rest
  end.

(** [prisma.user.update({ where: { id }, data })]. *)
Definition prisma_user_update (id : option string) (data : json_object)
  : handler User.t :=
  fun s =>
    match id with
    | None => (Throw "Argument `where` needs at least one of `id` or `email`", s)
    | Some i =>
        match find (fun u => User.id u =? i) (users s) with
        | None => (Throw "Record to update not found", s)
        | Some u =>
            match User_assign_all u data with
            | None => (Throw "Unknown or invalid argument in `data`", s)
            | Some u' =>
                let us' := replace_user i u' (users s) in
                if distinct (map User.id us') && distinct (map User.email us')
                then (Next u', with_users us' s)
                else (Throw "Unique constraint failed", s)
            end
        end
    end.

(** [prisma.job.findUnique({ where: { id } })]. *)
Definition prisma_job_findUnique (id : option string) : handler (option Job.t) :=
  fun s =>
    match id with
    | None => (Throw "Argument `where` needs at least one of `id`", s)
    | Some i => (Next (find (fun j => Job.id j =? i) (jobs s)), s)
    end.

(** Equality on a nullable text column. *)
Definition option_string_eqb (a : option string) (b : string) : bool :=
  match a with
  | Some x => x =? b
  | None => false
  end.

(** [prisma.jobApplication.findFirst({ where: { applicantId, jobId } })]. *)
Definition prisma_jobApplication_findFirst (applicantId jobId : string)
  : handler (option jobApplication.t) :=
  fun s =>
    (Next (find (fun a => (jobApplication.applicantId a =? applicantId)
                          && option_string_eqb (jobApplication.jobId a) jobId)
                (jobApplications s)), s).

(** [prisma.jobApplication.create({ data: { education, experience, resume,
    skills, applicantId, jobId, status: 'Applied' } })]: [id], [isApplied]
    and [createdAt] take their defaults; [id] is [@unique]; [applicantId]
    and [jobId] are foreign keys. *)
Definition prisma_jobApplication_create (d : Defaults)
    (education experience resume skills : jsval) (applicantId jobId : string)
    (status : applicationStatus) : handler jobApplication.t :=
  data_string "education" education (fun edu =>
  data_string "experience" experience (fun exp =>
  data_string "resume" resume (fun res =>
  data_string "skills" skills (fun ski =>
  fun s =>
    if existsb (fun a => jobApplication.id a =? uuid d) (jobApplications s)
    then (Throw "Unique constraint failed on the fields: (`id`)", s)
    else if negb (existsb (fun u => User.id u =? applicantId) (users s))
    then (Throw "Foreign key constraint failed on the field: `applicantId`", s)
    else if negb (existsb (fun j => Job.id j =? jobId) (jobs s))
    then (Throw "Foreign key constraint failed on the field: `jobId`", s)
    else let a := jobApplication.mk (uuid d) applicantId (Some jobId) (Some status)
                    true res ski exp edu (now d) in
         (Next a, with_jobApplications (jobApplications s ++ [a]) s))))).

(** [prisma.jobApplication.findMany({ where: { jobId }, include: { applicant:
    true, job: true } })]. *)
Definition prisma_jobApplication_findMany (jobId : string)
  : handler (list ApplicationWithRelations) :=
  fun s =>
    (Next (map (fun a =>
                  mkJoined a
                    (find (fun u => User.id u =? jobApplication.applicantId a) (users s))
                    (find (fun j => option_string_eqb (jobApplication.jobId a) (Job.id j))
                          (jobs s)))
               (filter (fun a => option_string_eqb (jobApplication.jobId a) jobId)
                       (jobApplications s))), s).

(** [prisma.jobApplication.findUnique({ where: { id } })]. *)
Definition prisma_jobApplication_findUnique (id : jsval)
  : handler (option jobApplication.t) :=
  fun s =>
    match id with
    | JStr i => (Next (find (fun a => jobApplication.id a =? i) (jobApplications s)), s)
    | _ => (Throw "Argument `where` needs at least one of `id`", s)
    end.

(** The value of [data.status] for the nullable enum column:
    [Some None] writes null, [None] is a refusal. *)
Definition status_of_jsval (v : jsval) : option (option applicationStatus) :=
  match v with
  | JNull => Some None
  | JStr s =>
      match applicationStatus_of_string s with
      | Some st => Some (Some st)
      | None => None
      end
  | _ => None
  end.

(** [prisma.jobApplication.update({ where: { id }, data: { status } })]. *)
Definition prisma_jobApplication_update_status (id : string) (status : jsval)
  : handler jobApplication.t :=
  fun s =>
    match find (fun a => jobApplication.id a =? id) (jobApplications s) with
    | None => (Throw "Record to update not found", s)
    | Some a =>
        match status with
        | JUndefined => (Next a, s)
        | _ =>
            match status_of_jsval status with
            | None =>
                (Throw "Invalid value for argument `status`. Expected applicationStatus", s)
            | Some st =>
                (Next (jobApplication.set_status st a),
                 with_jobApplications
                   (map (fun x => if jobApplication.id x =? id
                                  then jobApplication.set_status st x else x)
                        (jobApplications s)) s)
            end
        end
    end.

(** [prisma.company.findFirst({ where: { name } })]. *)
Definition prisma_company_findFirst (name : jsval) : handler (option Company.t) :=
  fun s =>
    match name with
    | JStr n => (Next (find (fun c => Company.name c =? n) (companies s)), s)
    | JUndefined => (Next (hd_error (companies s)), s)
    | _ => (Throw "Invalid value for argument `name`. Expected String", s)
    end.

(** [prisma.company.create({ data: { name, logo } })]: [id] takes its
    default and is [@unique]; [name] is not. *)
Definition prisma_company_create (d : Defaults) (name logo : jsval)
  : handler Company.t :=
  data_string "name" name (fun n =>
  data_string "logo" logo (fun l =>
  fun s =>
    if existsb (fun c => Company.id c =? uuid d) (companies s)
    then (Throw "Unique constraint failed on the fields: (`id`)", s)
    else let c := Company.mk (uuid d) n l in
         (Next c, with_companies (companies s ++ [c]) s))).

(* ================================================================== *)
(** ** The routers *)

(** What [verify(token, secret)] of hono/jwt does with a header value. *)
Inductive VerifyResult :=
| VerifyThrows                          (* malformed, bad signature, expired *)
| VerifyFalsy                           (* a payload that is not truthy *)
| VerifyPayload (id : option string).   (* a payload and its [id] claim *)

(** What a middleware leaves behind: the chain goes on with the context
    variable [userId] (if it was set), or the request is answered. *)
Inductive Gate :=
| Proceed (userId : option string)
| Denied (r : Response).

Section Routers.

(** The schemas of [../Validation], as the success flag of [safeParse] on the
    object built from the given fields. *)
Variable signupValidation : jsval -> jsval -> jsval -> jsval -> bool.
Variable applicationValidation : jsval -> jsval -> jsval -> jsval -> bool.
Variable statusValidation : jsval -> jsval -> bool.
Variable companyValidation : jsval -> jsval -> bool.

(** [bcrypt.hash(s, 10)] on a string (the salt it draws is left implicit). *)
Variable bcrypt_hash : string -> string.

(** [verify(header, c.env.JWT_SECRET)] and [Jwt.sign({ id, email, name },
    c.env.JWT_SECRET)]. *)
Variable jwt_verify : string -> VerifyResult.
Variable jwt_sign : string -> string -> string -> string.

(** [await bcrypt.hash(password, 10)] on a value of the body. *)
Definition bcrypt_hash_js (password : jsval) : handler string :=
  match password with
  | JStr p => ret (bcrypt_hash p)
  | _ => throw "Illegal arguments"
  end.

(** [c.req.header("authorization") || ""] and [c.req.query('filter') || '']. *)
Definition or_empty (v : option string) : string :=
  match v with
  | Some s => s
  | None => ""
  end.

(** The verification both routers share (user.ts 26-42, company.ts 18-34). *)
Definition verify_credential (authorization : option string) : Gate :=
  let authHeader := or_empty authorization in
  match jwt_verify authHeader with
  | VerifyPayload id => Proceed id
  | VerifyFalsy => Denied (json (Msg "Invalid token!!!") 403)
  | VerifyThrows => Denied (json (Msg "Invalid or expired token!!!") 403)
  end.

(** [userRouter.use("/*", ...)]: [path] is the whole request URL. *)
Definition userRouter_use (url : string) (authorization : option string) : Gate :=
  let path := url in
  if includes "/signin" path || includes "/signup" path then Proceed None
  else verify_credential authorization.

(** [companyRouter.use("/*", ...)]. *)
Definition companyRouter_use (authorization : option string) : Gate :=
  verify_credential authorization.

(** A route behind a middleware. *)
Definition behind (g : Gate) (route : option string -> Store -> Response * Store)
  : Store -> Response * Store :=
  match g with
  | Proceed userId => route userId
  | Denied r => fun s => (r, s)
  end.

Definition public (u : User.t) : PublicUser :=
  mkPublicUser (User.id u) (User.email u) (User.fullName u) (User.role u).

(** [userRouter.post('/signup', ...)]. *)
Definition signup (d : Defaults) (raw : option json_object)
  : Store -> Response * Store :=
  try_catch
    (b <- req_json raw ;;
     let email := field b "email" in
     let password := field b "password" in
     let fullName := field b "fullName" in
     let role := field b "role" in
     if negb (signupValidation email password fullName role) then
       respond (json (Result false "Validation Error" ValidationIssues) 400)
     else
       userExist <- prisma_user_findUnique_email email ;;
       match userExist with
       | Some _ => respond (json (Result false "User already exists" NoData) 409)
       | None =>
           hashedPassword <- bcrypt_hash_js password ;;
           user <- prisma_user_create d email hashedPassword fullName role ;;
           let token := jwt_sign (User.id user) (User.email user) (User.fullName user) in
           ret (json (Result true "User created successfully"
                        (SignedUp (public user) token)) 201)
       end)
    (fun e => json (Result false "Server error during user creation" (ErrorDetail e)) 500).

(** [userRouter.get('/bulk', ...)]. *)
Definition bulk (query_filter : option string) : Store -> Response * Store :=
  try_catch
    (let filter_ := or_empty query_filter in
     users <- prisma_user_findMany_contains filter_ ;;
     ret (json (Result true "Users fetched successfully" (UserList users)) 200))
    (fun e => json (Result false "Server error during fetching users" (ErrorDetail e)) 500).

(** [userRouter.put('/update', ...)]. *)
Definition update (userId : option string) (raw : option json_object)
  : Store -> Response * Store :=
  try_catch
    (b <- req_json raw ;;
     let name := field b "name" in
     let password := field b "password" in
     let updateData : json_object := [] in
     let updateData := if truthy name then updateData ++ [("name", name)] else updateData in
     updateData <- (if truthy password
                    then hashed <- bcrypt_hash_js password ;;
                         ret (updateData ++ [("password", JStr hashed)])
                    else ret updateData) ;;
     updatedUser <- prisma_user_update userId updateData ;;
     ret (json (Result true "User updated successfully" (UpdatedUser updatedUser)) 200))
    (fun e => json (Result false "Server error during updating user" (ErrorDetail e)) 500).

(** [jobId || undefined]. *)
Definition or_undefined (v : string) : option string :=
  if v =? "" then None else Some v.

(** [userRouter.post("/application/:id", ...)]. *)
Definition application (d : Defaults) (userId : option string) (param_id : string)
    (raw : option json_object) : Store -> Response * Store :=
  try_catch
    (b <- req_json raw ;;
     let education := field b "education" in
     let experience := field b "experience" in
     let skills := field b "skills" in
     let resume := field b "resume" in
     if negb (applicationValidation education experience skills resume) then
       respond (json (Result false "Validation error" ValidationIssues) 400)
     else
       let jobId := param_id in
       job <- prisma_job_findUnique (or_undefined jobId) ;;
       match job with
       | None => respond (json (Result false "Job not found" NoData) 401)
       | Some job =>
           candidate <- prisma_user_findFirst userId Candidate ;;
           match candidate with
           | None =>
               respond (json (Result false "Only Candidate can create Apllications for Job"
                                NoData) 404)
           | Some candidate =>
               existingApplication <-
                 prisma_jobApplication_findFirst (User.id candidate) (Job.id job) ;;
               match existingApplication with
               | Some _ =>
                   respond (json (Result false "You have already applied for this job."
                                    NoData) 402)
               | None =>
                   application <-
                     prisma_jobApplication_create d education experience resume skills
                       (User.id candidate) (Job.id job) Applied ;;
                   ret (json (Result true "Application created successfully"
                                (CreatedApplication application)) 201)
               end
           end
       end)
    (fun e => json (Result false "Server error during application creation"
                      (ErrorDetail e)) 500).

(** [userRouter.get("/allapplications/:id", ...)]. *)
Definition allapplications (userId : option string) (param_id : string)
  : Store -> Response * Store :=
  try_catch
    (let jobId := param_id in
     if jobId =? "" then
       respond (json (Result false "Job ID is required" NoData) 400)
     else
       job <- prisma_job_findUnique (Some jobId) ;;
       match job with
       | None => respond (json (Result false "Job not found" NoData) 404)
       | Some _ =>
           recruiter <- prisma_user_findFirst userId Recruiter ;;
           match recruiter with
           | None =>
               respond (json (Result false
                                "Only Recruiters can view applications for this job"
                                NoData) 403)
           | Some _ =>
               allApplications <- prisma_jobApplication_findMany jobId ;;
               ret (json (Result true "Fetched applications successfully"
                            (ApplicationList allApplications)) 200)
           end
       end)
    (fun e => json (Result false "Server error during fetching applications"
                      (ErrorDetail e)) 500).

(** [userRouter.put("/status", ...)]. *)
Definition put_status (userId : option string) (raw : option json_object)
  : Store -> Response * Store :=
  try_catch
    (b <- req_json raw ;;
     let applicationId := field b "applicationId" in
     let status := field b "status" in
     if negb (statusValidation applicationId status) then
       respond (json (Result false "Invalid input: Zod validation error"
                        ValidationIssues) 400)
     else
       user <- prisma_user_findFirst userId Recruiter ;;
       match user with
       | None =>
           respond (json (Result false "User not found or user is not a recruiter"
                            NoData) 403)
       | Some _ =>
           application <- prisma_jobApplication_findUnique applicationId ;;
           match application with
           | None => respond (json (Result false "Job application not found" NoData) 404)
           | Some application =>
               updatedStatus <-
                 prisma_jobApplication_update_status (jobApplication.id application)
                   status ;;
               ret (json (Result true "Job application status updated successfully"
                            (UpdatedStatus updatedStatus)) 200)
           end
       end)
    (fun e => json (Result false "Server error occurred while updating the status"
                      (ErrorDetail e)) 500).

(** [companyRouter.post("/create", ...)]. *)
Definition company_create (d : Defaults) (raw : option json_object)
  : Store -> Response * Store :=
  try_catch
    (b <- req_json raw ;;
     let name := field b "name" in
     let logo := field b "logo" in
     if negb (companyValidation name logo) then
       respond (json (Result false "Company validation error" ValidationIssues) 400)
     else
       existCompany <- prisma_company_findFirst name ;;
       match existCompany with
       | Some _ =>
           respond (json (Result false "Company Already exists with this name" NoData) 400)
       | None =>
           company <- prisma_company_create d name logo ;;
           ret (json (Result true "Company created successfully"
                        (CreatedCompany company)) 200)
       end)
    (fun e => json (Result false "Server error during creating company"
                      (ErrorDetail e)) 500).

(** The routes as requests reach them, behind their router's middleware. *)
Definition userRouter_post_application (url : string) (authorization : option string)
    (d : Defaults) (param_id : string) (raw : option json_object)
  : Store -> Response * Store :=
  behind (userRouter_use url authorization)
         (fun userId => application d userId param_id raw).

Definition companyRouter_post_create (authorization : option string)
    (d : Defaults) (raw : option json_object) : Store -> Response * Store :=
  behind (companyRouter_use authorization) (fun _ => company_create d raw).

(* ------------------------------------------------------------------ *)
(** *** The other routes of the two routers

    Sign-in, the caller's profile, the removal of the caller, the list of
    companies and the lookup of one company.  Their success bodies have a
    shape of their own, so their answers are typed by it. *)

(** [signinValidation] of [../Validation], [bcrypt.compare(s, hash)] on
    strings, and the order the database's collation puts on text. *)
Variable signinValidation : jsval -> jsval -> bool.
Variable bcrypt_compare : string -> string -> bool.
Variable collate_leb : string -> string -> bool.

(** The answer of a route: a refusal (a body with [success: false]), a
    success with its code, its [message] if it has one and its data, or an
    exception thrown outside the route's [try]. *)
Inductive answer (A : Type) :=
| Failed (r : Response)
| Succeeded (code : nat) (message : option string) (data : A)
| Uncaught (error : string).
Arguments Failed {A} r.
Arguments Succeeded {A} code message data.
Arguments Uncaught {A} error.

(** [try { h } catch (error) { return on_error(error.message) }] for a route
    whose last statement answers the success. *)
Definition try_catch_answer {A} (h : handler (nat * option string * A))
    (on_error : string -> Response) : Store -> answer A * Store :=
  fun s =>
    match h s with
    | (Next (code, message, data), s') => (Succeeded code message data, s')
    | (Respond r, s') => (Failed r, s')
    | (Throw e, s') => (Failed (on_error e), s')
    end.

(** [orderBy: { key: "asc" }]: rows with equal keys keep their order. *)
Fixpoint insert_by {A} (leb : A -> A -> bool) (x : A) (l : list A) : list A :=
  match l with
  | [] => [x]
  | y :: rest => if leb x y then x :: l else y :: insert_by leb x rest
  end.

Fixpoint order_by {A} (leb : A -> A -> bool) (l : list A) : list A :=
  match l with
  | [] => []
  | x :: rest => insert_by leb x (order_by leb rest)
  end.

(** [await bcrypt.compare(password, hash)] on a value of the body. *)
Definition bcrypt_compare_js (password : jsval) (hash : string) : handler bool :=
  match password with
  | JStr p => ret (bcrypt_compare p hash)
  | _ => throw "Illegal arguments"
  end.

(** The success body of sign-in: [{ token, user }], where [user] is selected
    with [email], [id], [fullName], [password] and [role]. *)
Record SignedIn := mkSignedIn {
  signedin_token : string;
  signedin_user : User.t
}.

(** [userRouter.post('/signin', ...)]. *)
Definition signin (raw : option json_object) : Store -> answer SignedIn * Store :=
  try_catch_answer
    (b <- req_json raw ;;
     let email := field b "email" in
     let password := field b "password" in
     if negb (signinValidation email password) then
       respond (json (Result false "Validation Error" ValidationIssues) 400)
     else
       user <- prisma_user_findUnique_email email ;;
       match user with
       | None => respond (json (Result false "User not found" NoData) 409)
       | Some user =>
           validPassword <- bcrypt_compare_js password (User.password user) ;;
           if negb validPassword then
             respond (json (Result false "Password does not match" NoData) 401)
           else
             let token := jwt_sign (User.id user) (User.email user) (User.fullName user) in
             ret (200, Some "User signed in successfully", mkSignedIn token user)
       end)
    (fun e => json (Result false "Server error during user signin" (ErrorDetail e)) 500).

(** The nested rows of the profile query. *)
Record JobWithCompany := mkJobWithCompany {
  jwc_job : Job.t;
  jwc_company : option Company.t
}.

Record ApplicationWithJob := mkApplicationWithJob {
  awj_application : jobApplication.t;
  awj_job : option JobWithCompany
}.

Record ApplicationWithApplicant := mkApplicationWithApplicant {
  awa_application : jobApplication.t;
  awa_applicant : option User.t
}.

Record JobWithApplications := mkJobWithApplications {
  jwa_job : Job.t;
  jwa_jobApplication : list ApplicationWithApplicant
}.

Record SavedJobWithJob := mkSavedJobWithJob {
  sjw_saved : SavedJobs.t;
  sjw_job : option Job.t
}.

(** The [select] of the profile query: no [password]. *)
Record Profile := mkProfile {
  profile_id : string;
  profile_fullName : string;
  profile_email : string;
  profile_role : Role;
  profile_jobApplication : list ApplicationWithJob;
  profile_createdJobs : list JobWithApplications;
  profile_savedJobs : list SavedJobWithJob
}.

Definition option_bind {A B} (o : option A) (f : A -> option B) : option B :=
  match o with
  | Some a => f a
  | None => None
  end.

(** [include: { job: { include: { company: true } } }] for one application. *)
Definition with_job_and_company (s : Store) (a : jobApplication.t) : ApplicationWithJob :=
  mkApplicationWithJob a
    (option_map
       (fun j =>
          mkJobWithCompany j
            (option_bind (Job.companyId j)
               (fun c => find (fun co => Company.id co =? c) (companies s))))
       (option_bind (jobApplication.jobId a)
          (fun i => find (fun j => Job.id j =? i) (jobs s)))).

(** [include: { jobApplication: { include: { applicant: true } } }] for one job. *)
Definition with_applications (s : Store) (j : Job.t) : JobWithApplications :=
  mkJobWithApplications j
    (map (fun a =>
            mkApplicationWithApplicant a
              (find (fun u => User.id u =? jobApplication.applicantId a) (users s)))
         (filter (fun a => option_string_eqb (jobApplication.jobId a) (Job.id j))
                 (jobApplications s))).

(** [include: { job: true }] for one bookmark. *)
Definition with_saved_job (s : Store) (sj : SavedJobs.t) : SavedJobWithJob :=
  mkSavedJobWithJob sj (find (fun j => Job.id j =? SavedJobs.jobId sj) (jobs s)).

(** The profile of the row [u]: its applications by [createdAt] ascending,
    the jobs it created and its bookmarks. *)
Definition profile_of (s : Store) (u : User.t) : Profile :=
  mkProfile (User.id u) (User.fullName u) (User.email u) (User.role u)
    (map (with_job_and_company s)
       (order_by (fun a b => (jobApplication.createdAt a <=? jobApplication.createdAt b)%Z)
          (filter (fun a => jobApplication.applicantId a =? User.id u)
                  (jobApplications s))))
    (map (with_applications s)
       (filter (fun j => Job.recruiterId j =? User.id u) (jobs s)))
    (map (with_saved_job s)
       (filter (fun sj => SavedJobs.userId sj =? User.id u) (savedJobs s))).

(** [prisma.user.findUnique({ where: { id }, select: { ... } })] of the
    profile route. *)
Definition prisma_user_findUnique_profile (id : option string) : handler (option Profile) :=
  fun s =>
    match id with
    | None => (Throw "Argument `where` needs at least one of `id` or `email`", s)
    | Some i =>
        (Next (option_map (profile_of s) (find (fun u => User.id u =? i) (users s))), s)
    end.

(** [userRouter.get('/me', ...)]. *)
Definition me (userId : option string) : Store -> answer Profile * Store :=
  try_catch_answer
    (user <- prisma_user_findUnique_profile userId ;;
     match user with
     | None => respond (json (Result false "User not found" NoData) 404)
     | Some user => ret (200, None, user)
     end)
    (fun e => json (Result false "Server error during fetching user" (ErrorDetail e)) 500).

(** The job [jobId] is one of the jobs the user [id] created. *)
Definition created_by (s : Store) (id jobId : string) : bool :=
  existsb (fun j => (Job.recruiterId j =? id) && (Job.id j =? jobId)) (jobs s).

(** [prisma.user.delete({ where: { id } })], with the [onDelete: Cascade] of
    the relations: the user's jobs, the user's applications and bookmarks,
    and the applications and bookmarks of the user's jobs go with the user. *)
Definition prisma_user_delete (id : string) : handler User.t :=
  fun s =>
    match find (fun u => User.id u =? id) (users s) with
    | None => (Throw "Record to delete does not exist", s)
    | Some u =>
        (Next u,
         mkStore
           (filter (fun x => negb (User.id x =? id)) (users s))
           (companies s)
           (filter (fun j => negb (Job.recruiterId j =? id)) (jobs s))
           (filter (fun sj => negb (SavedJobs.userId sj =? id)
                              && negb (created_by s id (SavedJobs.jobId sj)))
                   (savedJobs s))
           (filter (fun a => negb (jobApplication.applicantId a =? id)
                             && negb (match jobApplication.jobId a with
                                      | Some j => created_by s id j
                                      | None => false
                                      end))
                   (jobApplications s)))
    end.

(** [userRouter.post('/remove', ...)]. *)
Definition remove (userId : option string) : Store -> Response * Store :=
  try_catch
    (match userId with
     | None => respond (json (Result false "User ID is required" NoData) 400)
     | Some id =>
         if id =? "" then
           respond (json (Result false "User ID is required" NoData) 400)
         else
           _ <- prisma_user_delete id ;;
           ret (json (Result true "User deleted successfully" NoData) 200)
     end)
    (fun e => json (Result false "Server error during deleting user" (ErrorDetail e)) 500).

(** [prisma.company.findMany({ orderBy: { name: "asc" } })]. *)
Definition prisma_company_findMany_by_name : handler (list Company.t) :=
  fun s =>
    (Next (order_by (fun a b => collate_leb (Company.name a) (Company.name b))
                    (companies s)), s).

(** [companyRouter.get("/bulk", ...)]. *)
Definition company_bulk : Store -> answer (list Company.t) * Store :=
  try_catch_answer
    (companies <- prisma_company_findMany_by_name ;;
     ret (200, Some "Companies fetched successfully", companies))
    (fun e => json (Result false "Server error during fetching companies"
                      (ErrorDetail e)) 500).

(** [prisma.company.findUnique({ where: { id } })]. *)
Definition prisma_company_findUnique (id : jsval) : handler (option Company.t) :=
  fun s =>
    match id with
    | JStr i => (Next (find (fun c => Company.id c =? i) (companies s)), s)
    | _ => (Throw "Argument `where` needs at least one of `id`", s)
    end.

(** [companyRouter.post("/find", ...)]: the body is read before the [try]. *)
Definition company_find (raw : option json_object) : Store -> answer Company.t * Store :=
  match raw with
  | None => fun s => (Uncaught "Unexpected end of JSON input", s)
  | Some b =>
      let id := field b "id" in
      try_catch_answer
        (company <- prisma_company_findUnique id ;;
         match company with
         | None => respond (json (Result false "Company not Exists" NoData) 400)
         | Some company => ret (200, Some "Company fetched successfully", company)
         end)
        (fun e => json (Result false "Server error during fetching company"
                          (ErrorDetail e)) 500)
  end.

(** A route with a typed answer behind a middleware. *)
Definition behind_answer {A} (g : Gate)
    (route : option string -> Store -> answer A * Store) : Store -> answer A * Store :=
  match g with
  | Proceed userId => route userId
  | Denied r => fun s => (Failed r, s)
  end.

Definition userRouter_get_me (url : string) (authorization : option string)
  : Store -> answer Profile * Store :=
  behind_answer (userRouter_use url authorization) me.

Definition userRouter_post_remove (url : string) (authorization : option string)
  : Store -> Response * Store :=
  behind (userRouter_use url authorization) remove.

(* ================================================================== *)
(** ** Schemas and invariants the properties refer to *)

Definition is_string (v : jsval) : bool :=
  match v with
  | JStr _ => true
  | _ => false
  end.

Definition is_some {A} (o : option A) : bool :=
  match o with
  | Some _ => true
  | None => false
  end.

(** Modelled from the spec: the zod schema [applicationValidation] of
    [backend/src/Validation], which is not among the sources.  Section 4.4,
    Submit step 1, "validate payload shape", and section 3, "resume reference,
    free-text skills/experience/education": the four fields are strings.  The
    schema of the repository may refuse more, not less. *)
Definition shape_applicationValidation (education experience skills resume : jsval)
  : bool :=
  is_string education && is_string experience && is_string skills && is_string resume.

(** Modelled from the spec: the zod schema [signupValidation] of
    [backend/src/Validation], which is not among the sources.  Section 4.2,
    Register "fails with ValidationError if fields malformed", and section 3,
    "role in {Recruiter, Candidate}": three strings and a role name.  The
    schema of the repository may refuse more, not less. *)
Definition shape_signupValidation (email password fullName role : jsval) : bool :=
  is_string email && is_string password && is_string fullName
  && match role with
     | JStr r => is_some (Role_of_string r)
     | _ => false
     end.

(** Modelled from the spec: the zod schema [statusValidation] of
    [backend/src/Validation], which is not among the sources.  Section 4.4,
    UpdateStatus step 1, "validate applicationId and newStatus against the
    status enum": a string and the name of one of the four statuses. *)
Definition shape_statusValidation (applicationId status : jsval) : bool :=
  is_string applicationId
  && match status with
     | JStr s => is_some (applicationStatus_of_string s)
     | _ => false
     end.

(** Modelled from the spec: the zod schema [companyValidation] of
    [backend/src/Validation], which is not among the sources.  Section 3,
    Company "display name, logo reference": two strings. *)
Definition shape_companyValidation (name logo : jsval) : bool :=
  is_string name && is_string logo.

(** Modelled from the spec: the zod schema [signinValidation] of
    [backend/src/Validation], which is not among the sources.  Section 4.2,
    Authenticate(email, password): two strings.  The schema of the
    repository may refuse more, not less. *)
Definition shape_signinValidation (email password : jsval) : bool :=
  is_string email && is_string password.

(** [id String @unique] on [User]. *)
Definition unique_user_ids (s : Store) : Prop := NoDup (map User.id (users s)).

(** The applications of one candidate to one job. *)
Definition applications_of (applicantId jobId : string) (s : Store)
  : list jobApplication.t :=
  filter (fun a => (jobApplication.applicantId a =? applicantId)
                   && option_string_eqb (jobApplication.jobId a) jobId)
         (jobApplications s).

(** Section 3: at most one Application per (candidate, job) pair. *)
Definition one_application_per_pair (s : Store) : Prop :=
  forall applicantId jobId, length (applications_of applicantId jobId s) <= 1.

(** The caller's [userId] resolves to the row [u]. *)
Definition resolves_to (s : Store) (userId : string) (u : User.t) : Prop :=
  In u (users s) /\ User.id u = userId.

(** The foreign keys of the schema: every reference names a stored row. *)
Definition referential_integrity (s : Store) : Prop :=
  (forall j, In j (jobs s) ->
     exists u, In u (users s) /\ User.id u = Job.recruiterId j)
  /\ (forall j c, In j (jobs s) -> Job.companyId j = Some c ->
        exists co, In co (companies s) /\ Company.id co = c)
  /\ (forall a, In a (jobApplications s) ->
        exists u, In u (users s) /\ User.id u = jobApplication.applicantId a)
  /\ (forall a i, In a (jobApplications s) -> jobApplication.jobId a = Some i ->
        exists j, In j (jobs s) /\ Job.id j = i)
  /\ (forall sj, In sj (savedJobs s) ->
        exists u, In u (users s) /\ User.id u = SavedJobs.userId sj)
  /\ (forall sj, In sj (savedJobs s) ->
        exists j, In j (jobs s) /\ Job.id j = SavedJobs.jobId sj).

(** The [@unique] columns of the schema. *)
Definition unique_keys (s : Store) : Prop :=
  NoDup (map User.id (users s))
  /\ NoDup (map User.email (users s))
  /\ NoDup (map Company.id (companies s))
  /\ NoDup (map Job.id (jobs s))
  /\ NoDup (map SavedJobs.id (savedJobs s))
  /\ NoDup (map jobApplication.id (jobApplications s)).

(** An application with its [status] column blanked: what a status update
    must not touch. *)
Definition besides_status (a : jobApplication.t) : jobApplication.t :=
  jobApplication.set_status None a.

(** The row an accepted submission inserts. *)
Definition submitted (d : Defaults) (candidate : User.t) (j : Job.t)
  (edu exp res ski : string) : jobApplication.t :=
  jobApplication.mk (uuid d) (User.id candidate) (Some (Job.id j)) (Some Applied)
    true res ski exp edu (now d).

(** The job [j] with its [isOpen] flag set to [flag]. *)
Definition Job_with_isOpen (flag : bool) (j : Job.t) : Job.t :=
  Job.mk (Job.id j) (Job.recruiterId j) (Job.companyId j) (Job.title j)
    (Job.description j) (Job.location j) (Job.type j) (Job.requirement j)
    flag (Job.createdAt j).

(** The store with the [isOpen] flag of every job chosen by [f]. *)
Definition with_isOpen (f : Job.t -> bool) (s : Store) : Store :=
  mkStore (users s) (companies s)
    (map (fun j => Job_with_isOpen (f j) j) (jobs s))
    (savedJobs s) (jobApplications s).

(* ------------------------------------------------------------------ *)
(** *** A small database and stand-ins for the services, for the concrete
    runs at the end of the file *)

Definition ex_candidate : User.t :=
  User.mk "u-cand" "Asha Rao" "asha@example.com" "bcrypt:old-secret" Candidate.

Definition ex_recruiter : User.t :=
  User.mk "u-rec" "Ben Ode" "ben@example.com" "bcrypt:hunter2" Recruiter.

Definition ex_company : Company.t := Company.mk "c-1" "Acme" "acme.png".

Definition ex_job_open : Job.t :=
  Job.mk "job-1" "u-rec" (Some "c-1") "Engineer" "Builds things" "Pune"
    "Full-time" "Two years" true 100.

Definition ex_job_closed : Job.t :=
  Job.mk "job-2" "u-rec" None "Analyst" "Counts things" "Remote"
    "Contract" "None" false 110.

Definition ex_application : jobApplication.t :=
  jobApplication.mk "app-1" "u-cand" (Some "job-1") (Some Hired) true
    "cv.pdf" "Rocq" "3 years" "BSc" 200.

Definition ex_store : Store :=
  mkStore [ex_candidate; ex_recruiter] [ex_company] [ex_job_open; ex_job_closed]
    [] [ex_application].

Definition ex_defaults : Defaults := mkDefaults "fresh-uuid" 300.

Definition ex_body_application : json_object :=
  [("education", JStr "BSc"); ("experience", JStr "3 years");
   ("skills", JStr "Rocq"); ("resume", JStr "cv.pdf")].

Definition ex_hash (p : string) : string := ("bcrypt:" ++ p)%string.

Definition ex_sign (id email name : string) : string := ("jwt:" ++ id)%string.

Definition ex_verify (header : string) : VerifyResult :=
  if header =? "token-of-asha" then VerifyPayload (Some "u-cand")
  else if header =? "token-of-ben" then VerifyPayload (Some "u-rec")
  else VerifyThrows.

(** A stand-in for [bcrypt.compare] that fits [ex_hash], and the byte order
    as the collation. *)
Definition ex_compare (p hash : string) : bool := hash =? ex_hash p.

Definition ex_collate : string -> string -> bool := String.leb.

Definition ex_saved : SavedJobs.t := SavedJobs.mk "saved-1" "u-cand" "job-2".

(** [ex_store] with a second company, a bookmark of Asha on job-2 and an
    application of hers to job-2 that is older than the one to job-1. *)
Definition ex_store_full : Store :=
  mkStore [ex_candidate; ex_recruiter]
    [Company.mk "c-2" "Zeta" "zeta.png"; ex_company]
    [ex_job_open; ex_job_closed]
    [ex_saved]
    [ex_application;
     jobApplication.mk "app-2" "u-cand" (Some "job-2") (Some Applied) true
       "cv.pdf" "Rocq" "3 years" "BSc" 150].

(* ================================================================== *)
(** ** Facts about strings *)

Lemma prefix_empty : forall s, String.prefix "" s = true.
Proof. destruct s; reflexivity. Qed.

Lemma prefix_app : forall n h, String.prefix n h = true <-> exists post, h = (n ++ post)%string.
Proof.
  induction n as [|c n IH]; intros h.
  - rewrite prefix_empty. split; [intros _; exists h; reflexivity | reflexivity].
  - destruct h as [|c' h]; simpl.
    + split; [discriminate | intros [post H]; discriminate].
    + destruct (ascii_dec c c') as [->|Hne].
      * rewrite IH. split; intros [post H]; exists post.
        -- now rewrite H.
        -- now injection H.
      * split; [discriminate | intros [post H]; injection H as Hc _; now elim Hne].
Qed.


Lemma includes_nil : forall n, includes n "" = String.prefix n "".
Proof. intros n. cbn [includes]. now destruct (String.prefix n ""). Qed.

Lemma includes_cons : forall n c h,
  includes n (String c h) = String.prefix n (String c h) || includes n h.
Proof. intros n c h. cbn [includes]. now destruct (String.prefix n (String c h)). Qed.

(** [includes] is containment anywhere in the string. *)
Lemma includes_anywhere : forall n h,
  includes n h = true <-> exists pre post, h = (pre ++ n ++ post)%string.
Proof.
  intros n h; induction h as [|c h IH].
  - rewrite includes_nil, prefix_app. split.
    + intros [post H]. exists "", post. exact H.
    + intros [pre [post H]]. destruct pre; [eauto | discriminate].
  - rewrite includes_cons, orb_true_iff, IH, prefix_app. split.
    + intros [[post H] | [pre [post H]]].
      * exists "", post. exact H.
      * exists (String c pre), post. simpl. now rewrite H.
    + intros [pre [post H]]. destruct pre as [|c' pre]; simpl in H.
      * left. eauto.
      * right. injection H as _ H. eauto.
Qed.


(** Matching ignores the case of the letters A-Z on both sides. *)
Lemma contains_insensitive_lower : forall n h,
  contains_insensitive n h = true <->
  exists pre post, lower h = (pre ++ lower n ++ post)%string.
Proof. intros n h. apply includes_anywhere. Qed.

(* ================================================================== *)
(** ** Facts about tables *)



(** [find] succeeds as soon as one row satisfies the condition. *)
Lemma find_some_of_In : forall (A : Type) (p : A -> bool) (l : list A) (x : A),
  In x l -> p x = true -> exists y, find p l = Some y /\ In y l /\ p y = true.
Proof.
  induction l as [|a l IH]; intros x Hin Hp; [contradiction|].
  simpl. destruct (p a) eqn:Pa.
  - exists a. split; [reflexivity|]. split; [now left | assumption].
  - destruct Hin as [->|Hin]; [congruence|].
    destruct (IH x Hin Hp) as [y [Hf [Hy Py]]]. exists y.
    split; [assumption|]. split; [now right | assumption].
Qed.

Lemma find_none_of_all : forall (A : Type) (p : A -> bool) (l : list A),
  (forall x, In x l -> p x = false) -> find p l = None.
Proof.
  induction l as [|a l IH]; intros H; simpl; [reflexivity|].
  rewrite (H a) by now left. apply IH. intros y Hy. apply H. now right.
Qed.

Lemma existsb_of_In : forall (A : Type) (p : A -> bool) (l : list A) (x : A),
  In x l -> p x = true -> existsb p l = true.
Proof. intros A p l x Hin Hp. apply existsb_exists. eauto. Qed.

(** With unique ids, the row of a given id is the only one with that id. *)
Lemma unique_id_same_row : forall (us : list User.t) (u v : User.t),
  NoDup (map User.id us) -> In u us -> In v us -> User.id u = User.id v -> u = v.
Proof.
  induction us as [|a us IH]; intros u v Hnd Hu Hv Hid; [contradiction|].
  simpl in Hnd. inversion Hnd as [|? ? Hnotin Hnd']; subst.
  destruct Hu as [->|Hu], Hv as [->|Hv]; auto.
  - exfalso. apply Hnotin. rewrite Hid. now apply in_map.
  - exfalso. apply Hnotin. rewrite <- Hid. now apply in_map.
Qed.

(** A caller whose row has role [r] is not found under the other role. *)
Lemma findFirst_other_role : forall (s : Store) (userId : string) (u : User.t) (r : Role),
  unique_user_ids s -> resolves_to s userId u -> User.role u <> r ->
  prisma_user_findFirst (Some userId) r s = (Next None, s).
Proof.
  intros s userId u r Huniq [Hin Hid] Hrole. unfold prisma_user_findFirst.
  rewrite find_none_of_all; [reflexivity|].
  intros v Hv. simpl. destruct (User.id v =? userId) eqn:E; [|reflexivity].
  apply String.eqb_eq in E.
  assert (u = v) as <-
    by (apply (unique_id_same_row (users s)); [exact Huniq | assumption | assumption | congruence]).
  simpl. destruct (User.role u), r; try reflexivity; congruence.
Qed.

(** A caller whose row has role [r] is found under that role, as a row with
    the caller's id. *)
Lemma findFirst_same_role : forall (s : Store) (userId : string) (u : User.t) (r : Role),
  resolves_to s userId u -> User.role u = r ->
  exists v, prisma_user_findFirst (Some userId) r s = (Next (Some v), s)
            /\ In v (users s) /\ User.id v = userId /\ User.role v = r.
Proof.
  intros s userId u r [Hin Hid] Hrole. unfold prisma_user_findFirst.
  destruct (find_some_of_In _
              (fun u => where_eq (Some userId) (User.id u) && Role_eqb (User.role u) r)
              (users s) u Hin) as [v [Hf [Hv Pv]]].
  - simpl. rewrite Hid, String.eqb_refl, Hrole. now destruct r.
  - exists v. rewrite Hf. apply andb_true_iff in Pv as [P1 P2]. simpl in P1.
    apply String.eqb_eq in P1. repeat split; auto.
    destruct (User.role v), r; simpl in P2; congruence.
Qed.

Lemma job_findUnique_existing : forall (s : Store) (j : Job.t),
  In j (jobs s) ->
  exists j', prisma_job_findUnique (Some (Job.id j)) s = (Next (Some j'), s)
             /\ In j' (jobs s) /\ Job.id j' = Job.id j.
Proof.
  intros s j Hin. unfold prisma_job_findUnique.
  destruct (find_some_of_In _ (fun x => Job.id x =? Job.id j) (jobs s) j Hin)
    as [j' [Hf [Hj' P]]]; [apply String.eqb_refl|].
  exists j'. rewrite Hf. apply String.eqb_eq in P. auto.
Qed.

Lemma or_undefined_nonempty : forall v, v <> "" -> or_undefined v = Some v.
Proof.
  intros v H. unfold or_undefined. destruct (v =? "") eqn:E; [|reflexivity].
  apply String.eqb_eq in E. contradiction.
Qed.

(* ================================================================== *)
(** ** The authentication middleware *)

(** C10.  The open-path test of the user router's middleware is containment
    in the whole request URL.  A request whose URL holds "/signin" or
    "/signup" anywhere, a query string included, goes on with no [userId]
    set, whatever [verify] would say of its credential.  Every other request
    is verified: it goes on with the [id] of the payload, and is answered
    with 403 when [verify] throws (invalid, malformed or expired credential)
    or gives nothing. *)
Theorem userRouter_use_open_path_by_containment :
  forall (url : string) (authorization : option string),
    ((exists pre post, url = (pre ++ "/signin" ++ post)%string)
     \/ (exists pre post, url = (pre ++ "/signup" ++ post)%string) ->
     userRouter_use url authorization = Proceed None)
    /\ (~ (exists pre post, url = (pre ++ "/signin" ++ post)%string) ->
        ~ (exists pre post, url = (pre ++ "/signup" ++ post)%string) ->
        match jwt_verify (or_empty authorization) with
        | VerifyPayload id => userRouter_use url authorization = Proceed id
        | VerifyThrows | VerifyFalsy =>
            exists r, userRouter_use url authorization = Denied r /\ status r = 403
        end).
Proof.
  intros url authorization. unfold userRouter_use. split.
  - intros H.
    assert (includes "/signin" url || includes "/signup" url = true) as ->;
      [|reflexivity].
    apply orb_true_iff. destruct H as [H|H]; [left|right]; now apply includes_anywhere.
  - intros H1 H2.
    assert (includes "/signin" url || includes "/signup" url = false) as ->.
    { apply orb_false_iff. split; apply not_true_is_false; intros H;
        apply includes_anywhere in H; contradiction. }
    unfold verify_credential.
    destruct (jwt_verify (or_empty authorization)); eauto.
Qed.

(* ================================================================== *)
(** ** Search *)


(* ================================================================== *)
(** ** Submitting an application *)

Lemma find_none_filter : forall (A : Type) (p : A -> bool) (l : list A),
  find p l = None -> filter p l = [].
Proof.
  induction l as [|x l IH]; simpl; [reflexivity|].
  destruct (p x); [discriminate | exact IH].
Qed.

Lemma find_some_spec : forall (A : Type) (p : A -> bool) (l : list A) (x : A),
  find p l = Some x -> In x l /\ p x = true.
Proof. intros A p l x H. now apply find_some in H. Qed.

(** Every run of the submit route either leaves the store as it was and does
    not answer 201, or answers 201 and appends one application: that of the
    candidate it resolved, to the job it resolved, for a pair that had no
    application yet. *)
Lemma application_cases :
  forall (d : Defaults) (userId : option string) (param_id : string)
         (raw : option json_object) (s : Store),
    (snd (application d userId param_id raw s) = s
     /\ status (fst (application d userId param_id raw s)) <> 201)
    \/ (exists b j candidate edu exp res ski,
          raw = Some b
          /\ applicationValidation (field b "education") (field b "experience")
               (field b "skills") (field b "resume") = true
          /\ In j (jobs s) /\ Job.id j = param_id
          /\ In candidate (users s) /\ User.role candidate = Candidate
          /\ where_eq userId (User.id candidate) = true
          /\ applications_of (User.id candidate) (Job.id j) s = []
          /\ application d userId param_id raw s
             = (json (Result true "Application created successfully"
                        (CreatedApplication (submitted d candidate j edu exp res ski)))
                     201,
                with_jobApplications
                  (jobApplications s ++ [submitted d candidate j edu exp res ski]) s)
          /\ param_id <> ""
          /\ find (fun x => Job.id x =? param_id) (jobs s) = Some j
          /\ find (fun x => where_eq userId (User.id x)
                            && Role_eqb (User.role x) Candidate) (users s)
             = Some candidate).
Proof.
  intros d userId param_id raw s.
  unfold application, try_catch, bind, req_json.
  destruct raw as [b|]; [|left; split; [reflexivity | discriminate]].
  cbn [ret].
  destruct (applicationValidation _ _ _ _) eqn:V;
    [|left; split; [reflexivity | discriminate]].
  cbn [negb]. unfold prisma_job_findUnique.
  destruct (or_undefined param_id) as [i|] eqn:Ei;
    [|left; split; [reflexivity | discriminate]].
  assert (i = param_id /\ param_id <> "") as [-> Hne].
  { unfold or_undefined in Ei. destruct (param_id =? "") eqn:E; [discriminate|].
    apply String.eqb_neq in E. split; congruence. }
  destruct (find _ (jobs s)) as [j|] eqn:Fj;
    [|left; split; [reflexivity | discriminate]].
  destruct (find_some_spec _ _ _ _ Fj) as [Hj Pj]. apply String.eqb_eq in Pj.
  unfold prisma_user_findFirst.
  destruct (find _ (users s)) as [c|] eqn:Fc;
    [|left; split; [reflexivity | discriminate]].
  destruct (find_some_spec _ _ _ _ Fc) as [Hc Pc]. apply andb_true_iff in Pc as [Pc1 Pc2].
  unfold prisma_jobApplication_findFirst.
  destruct (find _ (jobApplications s)) as [a|] eqn:Fa;
    [left; split; [reflexivity | discriminate]|].
  apply find_none_filter in Fa.
  unfold prisma_jobApplication_create, data_string.
  destruct (field b "education") as [| | | |edu| |] eqn:Eedu;
    try (left; split; [reflexivity | discriminate]).
  destruct (field b "experience") as [| | | |exp| |] eqn:Eexp;
    try (left; split; [reflexivity | discriminate]).
  destruct (field b "resume") as [| | | |res| |] eqn:Eres;
    try (left; split; [reflexivity | discriminate]).
  destruct (field b "skills") as [| | | |ski| |] eqn:Eski;
    try (left; split; [reflexivity | discriminate]).
  destruct (existsb _ (jobApplications s));
    [left; split; [reflexivity | discriminate]|].
  rewrite (existsb_of_In _ _ (users s) c Hc) by apply String.eqb_refl.
  rewrite (existsb_of_In _ _ (jobs s) j Hj) by apply String.eqb_refl.
  cbn [negb]. right.
  exists b, j, c, edu, exp, res, ski.
  split; [reflexivity|].
  split; [rewrite Eedu, Eexp, Eski, Eres; exact V|].
  split; [exact Hj|]. split; [exact Pj|]. split; [exact Hc|].
  split; [destruct (User.role c); [discriminate | reflexivity]|].
  split; [exact Pc1|]. split; [exact Fa|]. split; [reflexivity|].
  split; [exact Hne|]. split; reflexivity.
Qed.

(** A body that is refused by the schema is answered 400, whoever sends it. *)
Lemma application_invalid :
  forall d userId param_id b s,
    applicationValidation (field b "education") (field b "experience")
      (field b "skills") (field b "resume") = false ->
    application d userId param_id (Some b) s
    = (json (Result false "Validation error" ValidationIssues) 400, s).
Proof.
  intros d userId param_id b s V.
  unfold application, try_catch, bind, req_json. cbn [ret]. rewrite V. reflexivity.
Qed.

(** A body that is not JSON makes [c.req.json()] throw. *)
Lemma application_unparsable :
  forall d userId param_id s,
    application d userId param_id None s
    = (json (Result false "Server error during application creation"
               (ErrorDetail "Unexpected end of JSON input")) 500, s).
Proof. reflexivity. Qed.

Lemma application_recruiter_valid :
  forall d userId param_id b s u j,
    applicationValidation (field b "education") (field b "experience")
      (field b "skills") (field b "resume") = true ->
    param_id <> "" -> In j (jobs s) -> Job.id j = param_id ->
    unique_user_ids s -> resolves_to s userId u -> User.role u = Recruiter ->
    application d (Some userId) param_id (Some b) s
    = (json (Result false "Only Candidate can create Apllications for Job" NoData) 404, s).
Proof.
  intros d userId param_id b s u j V Hne Hj Hid Huniq Hu Hrole.
  unfold application, try_catch, bind, req_json. cbn [ret]. rewrite V. cbn [negb].
  rewrite (or_undefined_nonempty _ Hne).
  destruct (job_findUnique_existing s j Hj) as [j' [Hf _]]. rewrite Hid in Hf. rewrite Hf.
  rewrite (findFirst_other_role s userId u Candidate Huniq Hu) by congruence.
  reflexivity.
Qed.

Lemma application_existing_valid :
  forall d userId param_id b s u j a,
    applicationValidation (field b "education") (field b "experience")
      (field b "skills") (field b "resume") = true ->
    param_id <> "" -> In j (jobs s) -> Job.id j = param_id ->
    resolves_to s userId u -> User.role u = Candidate ->
    In a (jobApplications s) ->
    jobApplication.applicantId a = userId -> jobApplication.jobId a = Some param_id ->
    application d (Some userId) param_id (Some b) s
    = (json (Result false "You have already applied for this job." NoData) 402, s).
Proof.
  intros d userId param_id b s u j a V Hne Hj Hid Hu Hrole Ha Hau Haj.
  unfold application, try_catch, bind, req_json. cbn [ret]. rewrite V. cbn [negb].
  rewrite (or_undefined_nonempty _ Hne).
  destruct (job_findUnique_existing s j Hj) as [j' [Hf [_ Hj']]].
  rewrite Hid in Hf, Hj'. rewrite Hf.
  destruct (findFirst_same_role s userId u Candidate Hu Hrole) as [v [Hv [_ [Hvid _]]]].
  rewrite Hv. unfold prisma_jobApplication_findFirst.
  destruct (find_some_of_In _
              (fun x => (jobApplication.applicantId x =? User.id v)
                        && option_string_eqb (jobApplication.jobId x) (Job.id j'))
              (jobApplications s) a Ha) as [a' [Hfa _]].
  - rewrite Hau, Haj, Hvid, Hj'. simpl. now rewrite !String.eqb_refl.
  - rewrite Hfa. reflexivity.
Qed.

Lemma applications_of_app : forall applicantId jobId s x,
  applications_of applicantId jobId
    (with_jobApplications (jobApplications s ++ [x]) s)
  = applications_of applicantId jobId s
    ++ (if (jobApplication.applicantId x =? applicantId)
           && option_string_eqb (jobApplication.jobId x) jobId
        then [x] else []).
Proof.
  intros applicantId jobId s x. unfold applications_of. simpl.
  rewrite filter_app. reflexivity.
Qed.

(** A submission that was answered 201, sent again, is answered 402 and
    stores nothing more. *)
Lemma application_again :
  forall d d' userId param_id raw s,
    status (fst (application d userId param_id raw s)) = 201 ->
    application d' userId param_id raw (snd (application d userId param_id raw s))
    = (json (Result false "You have already applied for this job." NoData) 402,
       snd (application d userId param_id raw s)).
Proof.
  intros d d' userId param_id raw s H201.
  destruct (application_cases d userId param_id raw s)
    as [[_ Hst] | [b [j [c [edu [exp [res [ski H]]]]]]]]; [elim (Hst H201)|].
  destruct H as [-> [V [_ [_ [_ [_ [_ [_ [Hrun [Hne [Fj Fc]]]]]]]]]]].
  rewrite Hrun. cbn [snd].
  unfold application, try_catch, bind, req_json. cbn [ret]. rewrite V. cbn [negb].
  rewrite (or_undefined_nonempty _ Hne).
  unfold prisma_job_findUnique. cbn [jobs with_jobApplications]. rewrite Fj.
  unfold prisma_user_findFirst. cbn [users with_jobApplications]. rewrite Fc.
  unfold prisma_jobApplication_findFirst. cbn [jobApplications with_jobApplications].
  destruct (find_some_of_In _
              (fun a => (jobApplication.applicantId a =? User.id c)
                        && option_string_eqb (jobApplication.jobId a) (Job.id j))
              (jobApplications s ++ [submitted d c j edu exp res ski])
              (submitted d c j edu exp res ski)) as [a' [Hfa _]].
  - apply in_or_app. right. now left.
  - simpl. now rewrite !String.eqb_refl.
  - rewrite Hfa. reflexivity.
Qed.

(** C1 (as amended).  When an application of a candidate to a job is already
    stored, a submission by that candidate for that job stores nothing,
    whatever its body.  With a body the schema accepts it is answered 402
    "You have already applied for this job." (Conflict); with a body the
    schema refuses it is answered 400 before the job is looked up.  In
    particular a submission that was answered 201, sent again, is answered
    402.  And no submission at all takes a store with at most one
    application per (candidate, job) pair to a store with two for some
    pair. *)
Theorem application_second_submission_conflict :
  (forall d userId param_id raw s u j a,
      param_id <> "" -> In j (jobs s) -> Job.id j = param_id ->
      resolves_to s userId u -> User.role u = Candidate ->
      In a (jobApplications s) ->
      jobApplication.applicantId a = userId ->
      jobApplication.jobId a = Some param_id ->
      snd (application d (Some userId) param_id raw s) = s
      /\ (forall b, raw = Some b ->
            applicationValidation (field b "education") (field b "experience")
              (field b "skills") (field b "resume") = true ->
            fst (application d (Some userId) param_id raw s)
            = json (Result false "You have already applied for this job." NoData) 402)
      /\ (forall b, raw = Some b ->
            applicationValidation (field b "education") (field b "experience")
              (field b "skills") (field b "resume") = false ->
            fst (application d (Some userId) param_id raw s)
            = json (Result false "Validation error" ValidationIssues) 400))
  /\ (forall d d' userId param_id raw s,
        status (fst (application d userId param_id raw s)) = 201 ->
        application d' userId param_id raw (snd (application d userId param_id raw s))
        = (json (Result false "You have already applied for this job." NoData) 402,
           snd (application d userId param_id raw s)))
  /\ (forall d userId param_id raw s,
        one_application_per_pair s ->
        one_application_per_pair (snd (application d userId param_id raw s))).
Proof.
  split; [|split].
  - intros d userId param_id raw s u j a Hne Hj Hid Hu Hrole Ha Hau Haj.
    split; [|split].
    + destruct raw as [b|]; [|reflexivity].
      destruct (applicationValidation (field b "education") (field b "experience")
                  (field b "skills") (field b "resume")) eqn:V.
      * now rewrite (application_existing_valid d userId param_id b s u j a).
      * now rewrite application_invalid.
    + intros b -> V. now rewrite (application_existing_valid d userId param_id b s u j a).
    + intros b -> V. now rewrite application_invalid.
  - apply application_again.
  - intros d userId param_id raw s Hone.
    destruct (application_cases d userId param_id raw s)
      as [[Hs _] | [b [j [c [edu [exp [res [ski H]]]]]]]].
    + now rewrite Hs.
    + destruct H as [_ [_ [_ [_ [_ [_ [_ [Hnone [Hrun _]]]]]]]]]. rewrite Hrun. cbn [snd].
      intros applicantId jobId. rewrite applications_of_app.
      destruct ((jobApplication.applicantId (submitted d c j edu exp res ski) =? applicantId)
                && option_string_eqb
                     (jobApplication.jobId (submitted d c j edu exp res ski)) jobId) eqn:E.
      * simpl in E. apply andb_true_iff in E as [E1 E2].
        apply String.eqb_eq in E1, E2. subst applicantId jobId.
        rewrite Hnone. simpl. lia.
      * rewrite app_nil_r. apply Hone.
Qed.

(** C4 (as amended).  When the caller's row has role Recruiter, a submission
    for an existing job stores nothing, whatever its body.  With a body the
    schema accepts it is answered 404 "Only Candidate can create Apllications
    for Job" (the route's Forbidden); with a body the schema refuses it is
    answered 400 before the role is looked at. *)
Theorem application_by_recruiter_forbidden :
  forall d userId param_id raw s u j,
    param_id <> "" -> In j (jobs s) -> Job.id j = param_id ->
    unique_user_ids s -> resolves_to s userId u -> User.role u = Recruiter ->
    snd (application d (Some userId) param_id raw s) = s
    /\ (forall b, raw = Some b ->
          applicationValidation (field b "education") (field b "experience")
            (field b "skills") (field b "resume") = true ->
          fst (application d (Some userId) param_id raw s)
          = json (Result false "Only Candidate can create Apllications for Job" NoData) 404)
    /\ (forall b, raw = Some b ->
          applicationValidation (field b "education") (field b "experience")
            (field b "skills") (field b "resume") = false ->
          fst (application d (Some userId) param_id raw s)
          = json (Result false "Validation error" ValidationIssues) 400).
Proof.
  intros d userId param_id raw s u j Hne Hj Hid Huniq Hu Hrole.
  split; [|split].
  - destruct raw as [b|]; [|reflexivity].
    destruct (applicationValidation (field b "education") (field b "experience")
                (field b "skills") (field b "resume")) eqn:V.
    + now rewrite (application_recruiter_valid d userId param_id b s u j).
    + now rewrite application_invalid.
  - intros b -> V. now rewrite (application_recruiter_valid d userId param_id b s u j).
  - intros b -> V. now rewrite application_invalid.
Qed.

Lemma find_map_same : forall (A : Type) (p : A -> bool) (g : A -> A) (l : list A),
  (forall x, p (g x) = p x) -> find p (map g l) = option_map g (find p l).
Proof.
  intros A p g l H. induction l as [|x l IH]; simpl; [reflexivity|].
  rewrite H. destruct (p x); [reflexivity | exact IH].
Qed.

Lemma existsb_map_same : forall (A : Type) (p : A -> bool) (g : A -> A) (l : list A),
  (forall x, p (g x) = p x) -> existsb p (map g l) = existsb p l.
Proof.
  intros A p g l H. induction l as [|x l IH]; simpl; [reflexivity|].
  now rewrite H, IH.
Qed.

(** The submit route reads no [isOpen] flag: with the flags set in any
    other way it gives the same answer and the same new rows. *)
Lemma application_ignores_isOpen :
  forall d userId param_id raw s f,
    application d userId param_id raw (with_isOpen f s)
    = (fst (application d userId param_id raw s),
       with_isOpen f (snd (application d userId param_id raw s))).
Proof.
  intros d userId param_id raw s f.
  unfold application, try_catch, bind, req_json.
  destruct raw as [b|]; [|reflexivity]. cbn [ret].
  destruct (applicationValidation _ _ _ _); [|reflexivity]. cbn [negb].
  unfold prisma_job_findUnique.
  destruct (or_undefined param_id) as [i|]; [|reflexivity].
  cbn [jobs with_isOpen].
  rewrite (find_map_same _ (fun j => Job.id j =? i)) by reflexivity.
  destruct (find _ (jobs s)) as [j|]; [|reflexivity]. cbn [option_map].
  unfold prisma_user_findFirst. cbn [users with_isOpen].
  destruct (find _ (users s)) as [c|]; [|reflexivity].
  unfold prisma_jobApplication_findFirst.
  cbn [jobApplications with_isOpen Job.id Job_with_isOpen].
  destruct (find _ (jobApplications s)) as [a|]; [reflexivity|].
  unfold prisma_jobApplication_create, data_string.
  destruct (field b "education"); try reflexivity.
  destruct (field b "experience"); try reflexivity.
  destruct (field b "resume"); try reflexivity.
  destruct (field b "skills"); try reflexivity.
  cbn [jobApplications users jobs with_isOpen].
  destruct (existsb _ (jobApplications s)); [reflexivity|].
  destruct (existsb _ (users s)); [|reflexivity]. cbn [negb].
  rewrite (existsb_map_same _ (fun x => Job.id x =? Job.id j)) by reflexivity.
  destruct (existsb _ (jobs s)); reflexivity.
Qed.

(** C2 (as amended).  The submit route asks the job table only whether the
    job exists.  An application is stored, and 201 answered, only if a job
    with the requested id is stored; the [isOpen] flag of the job is not
    read: the answer and the rows written are the same however the flags are
    set, so a submission to a closed job is accepted like one to an open
    job. *)
Theorem application_requires_job_only :
  forall d userId param_id raw s,
    (status (fst (application d userId param_id raw s)) = 201
     \/ snd (application d userId param_id raw s) <> s ->
     exists j, In j (jobs s) /\ Job.id j = param_id)
    /\ (forall f,
          application d userId param_id raw (with_isOpen f s)
          = (fst (application d userId param_id raw s),
             with_isOpen f (snd (application d userId param_id raw s)))).
Proof.
  intros d userId param_id raw s. split.
  - intros H.
    destruct (application_cases d userId param_id raw s)
      as [[Hs Hst] | [b [j [c [edu [exp [res [ski H']]]]]]]].
    + destruct H as [H|H]; [elim (Hst H) | elim (H Hs)].
    + exists j. destruct H' as [_ [_ [Hj [Hid _]]]]. split; assumption.
  - intros f. apply application_ignores_isOpen.
Qed.

(* ================================================================== *)
(** ** Recruiter routes: status update and listing *)

Lemma applicationStatus_of_name : forall st,
  applicationStatus_of_string (applicationStatus_name st) = Some st.
Proof. destruct st; reflexivity. Qed.

(** C3.  For a caller whose row has role Recruiter, an application that is
    stored, and any of the four status names, a request the schema accepts is
    answered 200 and the status is written as given: the application comes
    back with that status, and in the store every row with that id carries
    it while all other rows and all other columns are as before.  The status
    the application had plays no part. *)
Theorem put_status_persists_any_status :
  forall userId b s u a applicationId (st : applicationStatus),
    resolves_to s userId u -> User.role u = Recruiter ->
    In a (jobApplications s) -> jobApplication.id a = applicationId ->
    field b "applicationId" = JStr applicationId ->
    field b "status" = JStr (applicationStatus_name st) ->
    statusValidation (JStr applicationId) (JStr (applicationStatus_name st)) = true ->
    exists a',
      In a' (jobApplications s) /\ jobApplication.id a' = applicationId
      /\ put_status (Some userId) (Some b) s
         = (json (Result true "Job application status updated successfully"
                    (UpdatedStatus (jobApplication.set_status (Some st) a'))) 200,
            with_jobApplications
              (map (fun x => if jobApplication.id x =? applicationId
                             then jobApplication.set_status (Some st) x else x)
                   (jobApplications s)) s)
      /\ In (jobApplication.set_status (Some st) a)
            (jobApplications (snd (put_status (Some userId) (Some b) s)))
      /\ (forall x, In x (jobApplications (snd (put_status (Some userId) (Some b) s))) ->
                    jobApplication.id x = applicationId ->
                    jobApplication.status x = Some st).
Proof.
  intros userId b s u a applicationId st Hu Hrole Ha Hid Fid Fst V.
  destruct (find_some_of_In _ (fun x => jobApplication.id x =? applicationId)
              (jobApplications s) a Ha) as [a' [Hfind [Ha' Pa']]];
    [rewrite Hid; apply String.eqb_refl|].
  apply String.eqb_eq in Pa'.
  assert (put_status (Some userId) (Some b) s
          = (json (Result true "Job application status updated successfully"
                     (UpdatedStatus (jobApplication.set_status (Some st) a'))) 200,
             with_jobApplications
               (map (fun x => if jobApplication.id x =? applicationId
                              then jobApplication.set_status (Some st) x else x)
                    (jobApplications s)) s)) as Hrun.
  { unfold put_status, try_catch, bind, req_json. cbn [ret].
    rewrite Fid, Fst, V. cbn [negb].
    destruct (findFirst_same_role s userId u Recruiter Hu Hrole) as [v [Hv _]].
    rewrite Hv. unfold prisma_jobApplication_findUnique. rewrite Hfind.
    unfold prisma_jobApplication_update_status. rewrite Pa', Hfind.
    unfold status_of_jsval. rewrite applicationStatus_of_name. reflexivity. }
  exists a'. split; [exact Ha'|]. split; [exact Pa'|]. split; [exact Hrun|].
  rewrite Hrun. cbn [snd jobApplications with_jobApplications]. split.
  - apply in_map_iff. exists a. rewrite Hid, String.eqb_refl. auto.
  - intros x Hx Hxid. apply in_map_iff in Hx as [y [Hy _]].
    destruct (jobApplication.id y =? applicationId) eqn:E.
    + now subst x.
    + subst x. apply String.eqb_neq in E. contradiction.
Qed.

(** C5.  For a caller whose row has role Candidate, listing the applications
    of any existing job is answered 403, and so is a status update with any
    body the schema accepts: the role is looked up before the application,
    so the answer is 403 whether or not [applicationId] names a stored
    application.  Neither changes the store. *)
Theorem candidate_forbidden_on_recruiter_routes :
  forall userId s u,
    unique_user_ids s -> resolves_to s userId u -> User.role u = Candidate ->
    (forall param_id j,
        param_id <> "" -> In j (jobs s) -> Job.id j = param_id ->
        allapplications (Some userId) param_id s
        = (json (Result false "Only Recruiters can view applications for this job"
                   NoData) 403, s))
    /\ (forall b,
          statusValidation (field b "applicationId") (field b "status") = true ->
          put_status (Some userId) (Some b) s
          = (json (Result false "User not found or user is not a recruiter" NoData) 403,
             s)).
Proof.
  intros userId s u Huniq Hu Hrole.
  assert (prisma_user_findFirst (Some userId) Recruiter s = (Next None, s)) as Hnone
    by (apply (findFirst_other_role s userId u); [assumption | assumption | congruence]).
  split.
  - intros param_id j Hne Hj Hid.
    unfold allapplications, try_catch, bind.
    apply String.eqb_neq in Hne. rewrite Hne.
    destruct (job_findUnique_existing s j Hj) as [j' [Hf _]]. rewrite Hid in Hf.
    rewrite Hf, Hnone. reflexivity.
  - intros b V. unfold put_status, try_catch, bind, req_json. cbn [ret].
    rewrite V. cbn [negb]. rewrite Hnone. reflexivity.
Qed.

(* ================================================================== *)
(** ** Registration *)

(** C6 (as amended).  When the email of the body is already registered,
    sign-up stores nothing.  With a body the schema accepts it is answered
    409 "User already exists" (Conflict), whatever the accepted values of
    the other fields; with a body the schema refuses it is answered 400
    before the email is looked up. *)
Theorem signup_registered_email_conflict :
  forall d b s u e,
    In u (users s) -> User.email u = e -> field b "email" = JStr e ->
    snd (signup d (Some b) s) = s
    /\ (signupValidation (field b "email") (field b "password")
          (field b "fullName") (field b "role") = true ->
        fst (signup d (Some b) s)
        = json (Result false "User already exists" NoData) 409)
    /\ (signupValidation (field b "email") (field b "password")
          (field b "fullName") (field b "role") = false ->
        fst (signup d (Some b) s)
        = json (Result false "Validation Error" ValidationIssues) 400).
Proof.
  intros d b s u e Hu He Fe.
  destruct (find_some_of_In _ (fun x => User.email x =? e) (users s) u Hu)
    as [u' [Hfind _]]; [rewrite He; apply String.eqb_refl|].
  unfold signup, try_catch, bind, req_json. cbn [ret].
  destruct (signupValidation _ _ _ _) eqn:V; cbn [negb].
  - rewrite Fe. unfold prisma_user_findUnique_email. rewrite Hfind.
    split; [reflexivity|]. split; [reflexivity | discriminate].
  - split; [reflexivity|]. split; [discriminate | reflexivity].
Qed.

(* ================================================================== *)
(** ** Updating one's own record *)

(** [User] has no column [name] (the display name is [fullName]), so an
    update whose data carries the key [name] is refused. *)
Lemma User_assign_all_name : forall u v rest,
  User_assign_all u (("name", v) :: rest) = None.
Proof. reflexivity. Qed.

(** C7 (the route fails where the claim holds).  Whenever the body supplies a
    name (any truthy value), the update route writes the key [name], which
    is not a column of [User]; Prisma refuses the call, the route answers
    500 and the stored user keeps its [fullName], and its password too when
    one was supplied with the name. *)
Theorem update_with_name_answers_500 :
  forall userId b s,
    truthy (field b "name") = true ->
    snd (update userId (Some b) s) = s
    /\ status (fst (update userId (Some b) s)) = 500.
Proof.
  intros userId b s Hname.
  unfold update, try_catch, bind, req_json. cbn [ret]. rewrite Hname.
  assert (forall data,
             fst (prisma_user_update userId (("name", field b "name") :: data) s)
             = Throw "Record to update not found"
             \/ fst (prisma_user_update userId (("name", field b "name") :: data) s)
                = Throw "Argument `where` needs at least one of `id` or `email`"
             \/ fst (prisma_user_update userId (("name", field b "name") :: data) s)
                = Throw "Unknown or invalid argument in `data`") as Hthrow.
  { intros data. unfold prisma_user_update. destruct userId as [i|]; [|auto].
    destruct (find _ (users s)); [|auto]. rewrite User_assign_all_name. auto. }
  assert (forall data,
             snd (prisma_user_update userId (("name", field b "name") :: data) s) = s)
    as Hsame.
  { intros data. unfold prisma_user_update. destruct userId as [i|]; [|reflexivity].
    destruct (find _ (users s)); [|reflexivity]. now rewrite User_assign_all_name. }
  destruct (truthy (field b "password")).
  - unfold bcrypt_hash_js. destruct (field b "password"); try (split; reflexivity).
    cbn [ret app].
    specialize (Hthrow [("password", JStr (bcrypt_hash s0))]).
    specialize (Hsame [("password", JStr (bcrypt_hash s0))]).
    destruct (prisma_user_update userId _ s) as [o s'].
    cbn [fst snd] in *. subst s'.
    destruct Hthrow as [-> | [-> | ->]]; split; reflexivity.
  - cbn [ret app]. specialize (Hthrow []). specialize (Hsame []).
    destruct (prisma_user_update userId _ s) as [o s'].
    cbn [fst snd] in *. subst s'.
    destruct Hthrow as [-> | [-> | ->]]; split; reflexivity.
Qed.

(* ================================================================== *)
(** ** Creating a company *)

(** C9.  Behind the company router's middleware, a request with a verified
    credential reaches the create route, which reads the company table only:
    no user row and no role.  Its answer is 200 with the company stored, 400
    for a body the schema refuses, 400 for a name a stored company already
    has, or 500 with the store as it was; never 403.  With a body the schema
    accepts, a name no stored company has and a fresh id it is 200, whoever
    the caller is. *)
Theorem company_create_consults_no_role :
  forall authorization claimed_id d raw s,
    jwt_verify (or_empty authorization) = VerifyPayload claimed_id ->
    (forall s2, companies s2 = companies s ->
       fst (companyRouter_post_create authorization d raw s2)
       = fst (companyRouter_post_create authorization d raw s)
       /\ companies (snd (companyRouter_post_create authorization d raw s2))
          = companies (snd (companyRouter_post_create authorization d raw s)))
    /\ (status (fst (companyRouter_post_create authorization d raw s)) = 200
        \/ (exists b, raw = Some b
              /\ companyValidation (field b "name") (field b "logo") = false
              /\ companyRouter_post_create authorization d raw s
                 = (json (Result false "Company validation error" ValidationIssues) 400, s))
        \/ (exists c, In c (companies s)
              /\ companyRouter_post_create authorization d raw s
                 = (json (Result false "Company Already exists with this name" NoData) 400,
                    s))
        \/ (status (fst (companyRouter_post_create authorization d raw s)) = 500
            /\ snd (companyRouter_post_create authorization d raw s) = s))
    /\ (forall b n l,
          raw = Some b -> field b "name" = JStr n -> field b "logo" = JStr l ->
          companyValidation (JStr n) (JStr l) = true ->
          (forall c, In c (companies s) -> Company.name c <> n) ->
          (forall c, In c (companies s) -> Company.id c <> uuid d) ->
          companyRouter_post_create authorization d raw s
          = (json (Result true "Company created successfully"
                     (CreatedCompany (Company.mk (uuid d) n l))) 200,
             with_companies (companies s ++ [Company.mk (uuid d) n l]) s)).
Proof.
  intros authorization claimed_id d raw s Hverify.
  unfold companyRouter_post_create, companyRouter_use, verify_credential, behind.
  rewrite Hverify.
  split; [|split].
  - intros s2 Hsame.
    unfold company_create, try_catch, bind, req_json.
    destruct raw as [b|]; [|split; [reflexivity | exact Hsame]]. cbn [ret].
    destruct (companyValidation _ _); [|split; [reflexivity | exact Hsame]].
    cbn [negb].
    unfold prisma_company_findFirst, prisma_company_create, data_string.
    rewrite Hsame.
    destruct (field b "name"); try (split; [reflexivity | exact Hsame]).
    + destruct (hd_error (companies s)); split; first [reflexivity | exact Hsame].
    + destruct (find _ (companies s)); [split; [reflexivity | exact Hsame]|].
      destruct (field b "logo"); try (split; [reflexivity | exact Hsame]).
      rewrite Hsame.
      destruct (existsb _ (companies s)); [split; [reflexivity | exact Hsame]|].
      split; reflexivity.
  - unfold company_create, try_catch, bind, req_json.
    destruct raw as [b|]; [|right; right; right; split; reflexivity]. cbn [ret].
    destruct (companyValidation _ _) eqn:V; cbn [negb];
      [|right; left; exists b; auto].
    unfold prisma_company_findFirst, prisma_company_create, data_string.
    destruct (field b "name"); try (right; right; right; split; reflexivity).
    + destruct (hd_error (companies s)) as [c|] eqn:Hhd.
      * right; right; left. exists c. split; [|reflexivity].
        destruct (companies s); [discriminate|]. injection Hhd as ->. now left.
      * right; right; right; split; reflexivity.
    + destruct (find _ (companies s)) as [c|] eqn:Hfind.
      * right; right; left. exists c. split; [|reflexivity].
        now apply find_some_spec in Hfind.
      * destruct (field b "logo"); try (right; right; right; split; reflexivity).
        destruct (existsb _ (companies s));
          [right; right; right; split; reflexivity | left; reflexivity].
  - intros b n l -> Fn Fl V Hname Hfresh.
    unfold company_create, try_catch, bind, req_json. cbn [ret].
    rewrite Fn, Fl, V. cbn [negb].
    unfold prisma_company_findFirst, prisma_company_create, data_string.
    rewrite find_none_of_all.
    + destruct (existsb (fun c => Company.id c =? uuid d) (companies s)) eqn:E;
        [|reflexivity].
      apply existsb_exists in E as [c [Hc E]].
      apply String.eqb_eq in E. now elim (Hfresh c Hc).
    + intros c Hc. apply String.eqb_neq. now apply Hname.
Qed.

(* ================================================================== *)
(** ** Two further facts about the routes *)

Lemma distinct_NoDup : forall l, distinct l = true <-> NoDup l.
Proof.
  induction l as [|x l IH]; simpl.
  - split; [constructor | reflexivity].
  - rewrite andb_true_iff, negb_true_iff, IH. split.
    + intros [Hx Hl]. constructor; [|assumption].
      intros Hin. assert (existsb (String.eqb x) l = true); [|congruence].
      apply existsb_exists. exists x. split; [assumption | apply String.eqb_refl].
    + intros H. inversion H as [|? ? Hx Hl]; subst. split; [|assumption].
      apply not_true_is_false. intros E. apply existsb_exists in E as [y [Hy E]].
      apply String.eqb_eq in E. subst y. contradiction.
Qed.

Lemma replace_user_ids : forall i u' us,
  User.id u' = i -> map User.id (replace_user i u' us) = map User.id us.
Proof.
  intros i u' us Hid. unfold replace_user. rewrite map_map. apply map_ext.
  intros x. destruct (User.id x =? i) eqn:E; [|reflexivity].
  apply String.eqb_eq in E. congruence.
Qed.

Lemma replace_user_emails : forall i u u' us,
  NoDup (map User.id us) -> In u us -> User.id u = i ->
  User.email u' = User.email u ->
  map User.email (replace_user i u' us) = map User.email us.
Proof.
  intros i u u' us Hnd Hu Hid Hemail. unfold replace_user. rewrite map_map.
  apply map_ext_in. intros x Hx. destruct (User.id x =? i) eqn:E; [|reflexivity].
  apply String.eqb_eq in E.
  assert (u = x) as <-
    by (apply (unique_id_same_row us); [assumption | assumption | assumption | congruence]).
  exact Hemail.
Qed.

(** The row [u] with a new password. *)
Lemma User_assign_password : forall u h,
  User_assign_all u [("password", JStr h)]
  = Some (User.mk (User.id u) (User.fullName u) (User.email u) h (User.role u)).
Proof. reflexivity. Qed.

(** X1.  An update that supplies a password and no name is answered 200; it
    stores the hash of the password in the caller's row and changes nothing
    else, in that row or in any other. *)
Theorem update_password_only :
  forall userId b s u p,
    unique_user_ids s -> NoDup (map User.email (users s)) ->
    resolves_to s userId u ->
    truthy (field b "name") = false ->
    field b "password" = JStr p -> p <> "" ->
    update (Some userId) (Some b) s
    = (json (Result true "User updated successfully"
               (UpdatedUser (User.mk (User.id u) (User.fullName u) (User.email u)
                               (bcrypt_hash p) (User.role u)))) 200,
       with_users
         (map (fun x => if User.id x =? userId
                        then User.mk (User.id x) (User.fullName x) (User.email x)
                               (bcrypt_hash p) (User.role x)
                        else x) (users s)) s).
Proof.
  intros userId b s u p Hids Hemails [Hin Hid] Hname Hpw Hne.
  unfold update, try_catch, bind, req_json. cbn [ret]. rewrite Hname, Hpw.
  apply String.eqb_neq in Hne. cbn [truthy]. rewrite Hne. cbn [negb bcrypt_hash_js ret app].
  unfold prisma_user_update.
  destruct (find_some_of_In _ (fun x => User.id x =? userId) (users s) u Hin)
    as [u' [Hfind [Hu' Pu']]]; [rewrite Hid; apply String.eqb_refl|].
  apply String.eqb_eq in Pu'.
  assert (u = u') as <-
    by (apply (unique_id_same_row (users s));
        [exact Hids | assumption | assumption | congruence]).
  rewrite Hfind, User_assign_password.
  rewrite replace_user_ids by exact Hid.
  rewrite (replace_user_emails userId u) by (assumption || reflexivity).
  rewrite (proj2 (distinct_NoDup _) Hids), (proj2 (distinct_NoDup _) Hemails).
  assert (replace_user userId
            (User.mk (User.id u) (User.fullName u) (User.email u)
               (bcrypt_hash p) (User.role u)) (users s)
          = map (fun x => if User.id x =? userId
                          then User.mk (User.id x) (User.fullName x) (User.email x)
                                 (bcrypt_hash p) (User.role x)
                          else x) (users s)) as ->; [|reflexivity].
  unfold replace_user. apply map_ext_in.
  intros x Hx. destruct (User.id x =? userId) eqn:E; [|reflexivity].
  apply String.eqb_eq in E.
  assert (u = x) as <-
    by (apply (unique_id_same_row (users s));
        [exact Hids | assumption | assumption | congruence]).
  reflexivity.
Qed.

Lemma find_ext_bool : forall (A : Type) (p q : A -> bool) (l : list A),
  (forall x, p x = q x) -> find p l = find q l.
Proof.
  intros A p q l H. induction l as [|x l IH]; simpl; [reflexivity|].
  rewrite H, IH. reflexivity.
Qed.

(** X2.  A submission whose URL carries "/signin" or "/signup" reaches the
    route with no [userId]; the candidate lookup then has no condition on [id],
    and an accepted submission is stored for the first user of the table
    whose role is Candidate, whatever credential came with the request. *)
Theorem application_through_open_path :
  forall url authorization d param_id raw s,
    includes "/signin" url || includes "/signup" url = true ->
    userRouter_post_application url authorization d param_id raw s
    = application d None param_id raw s
    /\ (status (fst (application d None param_id raw s)) = 201 ->
        exists c a,
          find (fun u => Role_eqb (User.role u) Candidate) (users s) = Some c
          /\ jobApplication.applicantId a = User.id c
          /\ jobApplications (snd (application d None param_id raw s))
             = jobApplications s ++ [a]).
Proof.
  intros url authorization d param_id raw s Hopen. split.
  - unfold userRouter_post_application, userRouter_use, behind. now rewrite Hopen.
  - intros H201.
    destruct (application_cases d None param_id raw s)
      as [[_ Hst] | [b [j [c [edu [exp [res [ski H]]]]]]]]; [elim (Hst H201)|].
    destruct H as [_ [_ [_ [_ [_ [_ [_ [_ [Hrun [_ [_ Fc]]]]]]]]]]].
    exists c, (submitted d c j edu exp res ski). split; [|split].
    + rewrite <- Fc. apply find_ext_bool. reflexivity.
    + reflexivity.
    + rewrite Hrun. reflexivity.
Qed.

(* ================================================================== *)
(** ** Ordered queries *)

Lemma insert_by_Permutation : forall (A : Type) (leb : A -> A -> bool) (x : A) (l : list A),
  Permutation (insert_by leb x l) (x :: l).
Proof.
  intros A leb x l. induction l as [|y l IH]; simpl; [apply Permutation_refl|].
  destruct (leb x y); [apply Permutation_refl|].
  apply perm_trans with (y :: x :: l); [now apply perm_skip | apply perm_swap].
Qed.

Lemma order_by_Permutation : forall (A : Type) (leb : A -> A -> bool) (l : list A),
  Permutation (order_by leb l) l.
Proof.
  intros A leb l. induction l as [|x l IH]; simpl; [apply perm_nil|].
  apply perm_trans with (x :: order_by leb l);
    [apply insert_by_Permutation | now apply perm_skip].
Qed.

Lemma insert_by_HdRel : forall (A : Type) (leb : A -> A -> bool) (a x : A) (l : list A),
  leb a x = true -> HdRel (fun p q => leb p q = true) a l ->
  HdRel (fun p q => leb p q = true) a (insert_by leb x l).
Proof.
  intros A leb a x l Hax Hl. destruct l as [|y l]; simpl.
  - now constructor.
  - destruct (leb x y); constructor; [assumption|].
    now apply HdRel_inv in Hl.
Qed.

Lemma insert_by_Sorted : forall (A : Type) (leb : A -> A -> bool) (x : A) (l : list A),
  (forall p q, leb p q = false -> leb q p = true) ->
  Sorted (fun p q => leb p q = true) l ->
  Sorted (fun p q => leb p q = true) (insert_by leb x l).
Proof.
  intros A leb x l Htotal Hl. induction l as [|y l IH]; simpl.
  - now repeat constructor.
  - destruct (leb x y) eqn:E.
    + constructor; [assumption | now constructor].
    + apply Sorted_inv in Hl as [Hl Hy]. constructor; [now apply IH|].
      apply insert_by_HdRel; [now apply Htotal | assumption].
Qed.

Lemma order_by_Sorted : forall (A : Type) (leb : A -> A -> bool) (l : list A),
  (forall p q, leb p q = false -> leb q p = true) ->
  Sorted (fun p q => leb p q = true) (order_by leb l).
Proof.
  intros A leb l Htotal. induction l as [|x l IH]; simpl; [constructor|].
  now apply insert_by_Sorted.
Qed.


(** X3.  The list of companies is answered 200 with every stored company,
    each once, in ascending order of [name] for the collation, whenever the
    collation compares any two names one way or the other.  The store is
    left as it was. *)
Theorem company_bulk_in_name_order :
  forall s,
    (forall a b, collate_leb a b = false -> collate_leb b a = true) ->
    exists listed,
      company_bulk s = (Succeeded 200 (Some "Companies fetched successfully") listed, s)
      /\ Permutation listed (companies s)
      /\ Sorted (fun a b => collate_leb (Company.name a) (Company.name b) = true) listed.
Proof.
  intros s Htotal.
  exists (order_by (fun a b => collate_leb (Company.name a) (Company.name b)) (companies s)).
  split; [reflexivity|]. split; [apply order_by_Permutation|].
  apply (order_by_Sorted _ (fun a b => collate_leb (Company.name a) (Company.name b))).
  intros p q. apply Htotal.
Qed.

(* ================================================================== *)
(** ** The caller's profile *)

Lemma find_by_unique_id : forall (s : Store) (userId : string) (u : User.t),
  unique_user_ids s -> resolves_to s userId u ->
  find (fun x => User.id x =? userId) (users s) = Some u.
Proof.
  intros s userId u Huniq [Hin Hid].
  destruct (find_some_of_In _ (fun x => User.id x =? userId) (users s) u Hin)
    as [v [Hfind [Hv Pv]]]; [rewrite Hid; apply String.eqb_refl|].
  apply String.eqb_eq in Pv. rewrite Hfind. f_equal. symmetry.
  apply (unique_id_same_row (users s)); [exact Huniq | assumption | assumption | congruence].
Qed.


(** The row of a key that is unique in its table is what [find] returns. *)
Lemma find_unique_key : forall (A : Type) (key : A -> string) (l : list A) (x : A) (k : string),
  NoDup (map key l) -> In x l -> key x = k ->
  find (fun y => key y =? k) l = Some x.
Proof.
  intros A key l x k. induction l as [|a l IH]; intros Hnd Hin Hk; [contradiction|].
  simpl in Hnd. inversion Hnd as [|? ? Hnotin Hnd']; subst. simpl.
  destruct Hin as [->|Hin].
  - now rewrite String.eqb_refl.
  - destruct (key a =? key x) eqn:E; [|now apply IH].
    apply String.eqb_eq in E. exfalso. apply Hnotin. rewrite E. now apply in_map.
Qed.

(** X5.  In the profile of a stored caller, the created jobs are the jobs
    whose recruiter is the caller, in table order, and each comes with the
    applications made to it, all of them and no others; when the foreign
    keys hold, each of these applications carries the whole stored row of
    its applicant, password hash included. *)
Theorem me_created_jobs_carry_applicant_rows :
  forall userId s u,
    unique_user_ids s -> referential_integrity s -> resolves_to s userId u ->
    exists p,
      me (Some userId) s = (Succeeded 200 None p, s)
      /\ map jwa_job (profile_createdJobs p)
         = filter (fun j => Job.recruiterId j =? userId) (jobs s)
      /\ (forall e, In e (profile_createdJobs p) ->
            map awa_application (jwa_jobApplication e)
            = filter (fun a => option_string_eqb (jobApplication.jobId a)
                                 (Job.id (jwa_job e)))
                     (jobApplications s)
            /\ (forall x, In x (jwa_jobApplication e) ->
                  exists row,
                    awa_applicant x = Some row /\ In row (users s)
                    /\ User.id row = jobApplication.applicantId (awa_application x))).
Proof.
  intros userId s u Huniq Hfk Hu.
  exists (profile_of s u).
  assert (User.id u = userId) as Hid by apply Hu.
  split.
  { unfold me, try_catch_answer, bind, prisma_user_findUnique_profile.
    rewrite (find_by_unique_id s userId u Huniq Hu). reflexivity. }
  cbn [profile_of profile_createdJobs]. split.
  - rewrite map_map. cbn [with_applications jwa_job]. now rewrite map_id, Hid.
  - intros e He. apply in_map_iff in He as [j [<- _]].
    cbn [with_applications jwa_job jwa_jobApplication]. split.
    + rewrite map_map. cbn [awa_application]. apply map_id.
    + intros x Hx. apply in_map_iff in Hx as [a [<- Ha]].
      apply filter_In in Ha as [Ha _]. cbn [awa_applicant awa_application].
      destruct Hfk as [_ [_ [Happ _]]]. destruct (Happ a Ha) as [row [Hrow Hrid]].
      destruct (find_some_of_In _
                  (fun u0 => User.id u0 =? jobApplication.applicantId a)
                  (users s) row Hrow) as [row' [Hf [Hin' P]]];
        [rewrite Hrid; apply String.eqb_refl|].
      exists row'. apply String.eqb_eq in P. auto.
Qed.

(** X6.  The profile route without a usable identity.  A request whose URL
    carries "/signin" or "/signup" passes the middleware with no [userId],
    and the profile query is refused for want of its key: the answer is
    500.  A caller whose id names no stored row is answered 404.  Neither
    changes the store. *)
Theorem me_without_a_stored_caller :
  forall url authorization userId s,
    (includes "/signin" url || includes "/signup" url = true ->
     userRouter_get_me url authorization s
     = (Failed (json (Result false "Server error during fetching user"
                        (ErrorDetail
                           "Argument `where` needs at least one of `id` or `email`"))
                  500), s))
    /\ ((forall u, In u (users s) -> User.id u <> userId) ->
        me (Some userId) s
        = (Failed (json (Result false "User not found" NoData) 404), s)).
Proof.
  intros url authorization userId s. split.
  - intros Hopen. unfold userRouter_get_me, userRouter_use, behind_answer.
    rewrite Hopen. reflexivity.
  - intros Hnone. unfold me, try_catch_answer, bind, prisma_user_findUnique_profile.
    rewrite find_none_of_all; [reflexivity|].
    intros u Hu. apply String.eqb_neq. now apply Hnone.
Qed.

(* ================================================================== *)
(** ** Sign-up and sign-in *)

(** Every run of sign-up either leaves the store as it was and does not
    answer 201, or answers 201 and appends one user: the fields of the body
    with the hash of the password. *)
Lemma signup_cases :
  forall d raw s,
    (snd (signup d raw s) = s /\ status (fst (signup d raw s)) <> 201)
    \/ (exists b e p n r role,
          raw = Some b
          /\ field b "email" = JStr e /\ field b "password" = JStr p
          /\ field b "fullName" = JStr n /\ field b "role" = JStr r
          /\ Role_of_string r = Some role
          /\ signupValidation (JStr e) (JStr p) (JStr n) (JStr r) = true
          /\ (forall u, In u (users s) -> User.email u <> e)
          /\ (forall u, In u (users s) -> User.id u <> uuid d)
          /\ signup d raw s
             = (json (Result true "User created successfully"
                        (SignedUp (mkPublicUser (uuid d) e n role)
                           (jwt_sign (uuid d) e n))) 201,
                with_users (users s ++ [User.mk (uuid d) n e (bcrypt_hash p) role]) s)).
Proof.
  intros d raw s.
  unfold signup, try_catch, bind, req_json.
  destruct raw as [b|]; [|left; split; [reflexivity | discriminate]].
  cbn [ret].
  destruct (signupValidation _ _ _ _) eqn:V;
    [|left; split; [reflexivity | discriminate]].
  cbn [negb]. unfold prisma_user_findUnique_email.
  destruct (field b "email") as [| | | |e| |] eqn:Ee;
    try (left; split; [reflexivity | discriminate]).
  destruct (find _ (users s)) as [u0|] eqn:Fe;
    [left; split; [reflexivity | discriminate]|].
  unfold bcrypt_hash_js.
  destruct (field b "password") as [| | | |p| |] eqn:Ep;
    try (left; split; [reflexivity | discriminate]).
  cbn [ret]. unfold prisma_user_create, data_string.
  destruct (field b "fullName") as [| | | |n| |] eqn:En;
    try (left; split; [reflexivity | discriminate]).
  destruct (field b "role") as [| | | |r| |] eqn:Er;
    try (left; split; [reflexivity | discriminate]).
  destruct (Role_of_string r) as [role|] eqn:Hrole;
    [|left; split; [reflexivity | discriminate]].
  destruct (existsb (fun u => User.id u =? uuid d) (users s)) eqn:Xid;
    [left; split; [reflexivity | discriminate]|].
  destruct (existsb (fun u => User.email u =? e) (users s)) eqn:Xem;
    [left; split; [reflexivity | discriminate]|].
  right. exists b, e, p, n, r, role.
  split; [reflexivity|]. split; [exact Ee|]. split; [exact Ep|].
  split; [exact En|]. split; [exact Er|]. split; [exact Hrole|].
  split; [exact V|]. split; [|split; [|reflexivity]].
  - intros u Hu Heq.
    assert (existsb (fun u => User.email u =? e) (users s) = true); [|congruence].
    apply (existsb_of_In _ _ _ u Hu). now apply String.eqb_eq.
  - intros u Hu Heq.
    assert (existsb (fun u => User.id u =? uuid d) (users s) = true); [|congruence].
    apply (existsb_of_In _ _ _ u Hu). now apply String.eqb_eq.
Qed.

(** X7.  Sign-up with a body the schema accepts, whose four fields are
    strings, whose role is a role name and whose email is not registered is
    answered 201.  One user is appended, with the email, name and role of
    the body and the hash of the password, never the password itself; the
    answer carries the new user without its password and a token signed for
    its id, email and name. *)
Theorem signup_creates_user :
  forall d b s e p n r role,
    field b "email" = JStr e -> field b "password" = JStr p ->
    field b "fullName" = JStr n -> field b "role" = JStr r ->
    Role_of_string r = Some role ->
    signupValidation (JStr e) (JStr p) (JStr n) (JStr r) = true ->
    (forall u, In u (users s) -> User.email u <> e) ->
    (forall u, In u (users s) -> User.id u <> uuid d) ->
    signup d (Some b) s
    = (json (Result true "User created successfully"
               (SignedUp (mkPublicUser (uuid d) e n role) (jwt_sign (uuid d) e n))) 201,
       with_users (users s ++ [User.mk (uuid d) n e (bcrypt_hash p) role]) s).
Proof.
  intros d b s e p n r role Ee Ep En Er Hrole V Hemail Hid.
  unfold signup, try_catch, bind, req_json. cbn [ret].
  rewrite Ee, Ep, En, Er, V. cbn [negb].
  unfold prisma_user_findUnique_email.
  rewrite find_none_of_all
    by (intros u Hu; apply String.eqb_neq; now apply Hemail).
  cbn [bcrypt_hash_js ret]. unfold prisma_user_create, data_string. rewrite Hrole.
  destruct (existsb (fun u => User.id u =? uuid d) (users s)) eqn:Xid.
  { apply existsb_exists in Xid as [u [Hu E]]. apply String.eqb_eq in E.
    now elim (Hid u Hu). }
  destruct (existsb (fun u => User.email u =? e) (users s)) eqn:Xem.
  { apply existsb_exists in Xem as [u [Hu E]]. apply String.eqb_eq in E.
    now elim (Hemail u Hu). }
  reflexivity.
Qed.

Lemma find_app_last : forall (A : Type) (p : A -> bool) (l : list A) (x : A),
  (forall y, In y l -> p y = false) -> p x = true -> find p (l ++ [x]) = Some x.
Proof.
  intros A p l x Hl Hx. induction l as [|a l IH]; simpl.
  - now rewrite Hx.
  - rewrite (Hl a) by now left. apply IH. intros y Hy. apply Hl. now right.
Qed.

(** X8.  Sign-up then sign-in.  After a sign-up that was answered 201,
    signing in with the same email and password is answered 200, provided
    the sign-in schema accepts them and [bcrypt.compare] recognises the
    password against its own hash.  The answer carries the row that sign-up
    stored and a token signed for the same id, email and name as the token
    of the sign-up; the store is not changed by signing in. *)
Theorem signup_then_signin :
  forall d b b' s e p,
    field b "email" = JStr e -> field b "password" = JStr p ->
    field b' "email" = JStr e -> field b' "password" = JStr p ->
    status (fst (signup d (Some b) s)) = 201 ->
    signinValidation (JStr e) (JStr p) = true ->
    bcrypt_compare p (bcrypt_hash p) = true ->
    exists u,
      users (snd (signup d (Some b) s)) = users s ++ [u]
      /\ User.email u = e /\ User.password u = bcrypt_hash p
      /\ fst (signup d (Some b) s)
         = json (Result true "User created successfully"
                   (SignedUp (public u)
                      (jwt_sign (User.id u) (User.email u) (User.fullName u)))) 201
      /\ signin (Some b') (snd (signup d (Some b) s))
         = (Succeeded 200 (Some "User signed in successfully")
              (mkSignedIn (jwt_sign (User.id u) (User.email u) (User.fullName u)) u),
            snd (signup d (Some b) s)).
Proof.
  intros d b b' s e p Ee Ep Ee' Ep' H201 V Hcmp.
  destruct (signup_cases d (Some b) s)
    as [[_ Hst] | [b0 [e0 [p0 [n [r [role H]]]]]]]; [elim (Hst H201)|].
  destruct H as [Hb [Ee0 [Ep0 [_ [_ [_ [_ [Hfresh [_ Hrun]]]]]]]]].
  injection Hb as <-. rewrite Ee in Ee0. rewrite Ep in Ep0.
  injection Ee0 as <-. injection Ep0 as <-.
  exists (User.mk (uuid d) n e (bcrypt_hash p) role).
  rewrite Hrun. cbn [fst snd users with_users User.email User.password].
  split; [reflexivity|]. split; [reflexivity|]. split; [reflexivity|].
  split; [reflexivity|].
  unfold signin, try_catch_answer, bind, req_json. cbn [ret].
  rewrite Ee', Ep', V. cbn [negb].
  unfold prisma_user_findUnique_email. cbn [users with_users].
  rewrite (find_app_last _ (fun u => User.email u =? e) (users s)
             (User.mk (uuid d) n e (bcrypt_hash p) role)).
  - cbn [bcrypt_compare_js User.password ret]. rewrite Hcmp. reflexivity.
  - intros y Hy. apply String.eqb_neq. now apply Hfresh.
  - apply String.eqb_refl.
Qed.

(** X9.  Sign-in with a body the schema accepts.  An email that no stored
    user has is answered 409 "User not found".  For a stored user (emails
    being unique) the password decides: when [bcrypt.compare] rejects it the
    answer is 401, when it accepts it the answer is 200 with a token and the
    whole stored row, password hash included.  No case changes the store. *)
Theorem signin_outcomes :
  forall b s e p,
    field b "email" = JStr e -> field b "password" = JStr p ->
    signinValidation (JStr e) (JStr p) = true ->
    ((forall u, In u (users s) -> User.email u <> e) ->
     signin (Some b) s
     = (Failed (json (Result false "User not found" NoData) 409), s))
    /\ (forall u,
          NoDup (map User.email (users s)) -> In u (users s) -> User.email u = e ->
          signin (Some b) s
          = (if bcrypt_compare p (User.password u)
             then Succeeded 200 (Some "User signed in successfully")
                    (mkSignedIn (jwt_sign (User.id u) (User.email u) (User.fullName u)) u)
             else Failed (json (Result false "Password does not match" NoData) 401),
             s)).
Proof.
  intros b s e p Ee Ep V. split.
  - intros Hnone. unfold signin, try_catch_answer, bind, req_json. cbn [ret].
    rewrite Ee, Ep, V. cbn [negb]. unfold prisma_user_findUnique_email.
    rewrite find_none_of_all; [reflexivity|].
    intros u Hu. apply String.eqb_neq. now apply Hnone.
  - intros u Hnd Hu He. unfold signin, try_catch_answer, bind, req_json. cbn [ret].
    rewrite Ee, Ep, V. cbn [negb]. unfold prisma_user_findUnique_email.
    rewrite (find_unique_key _ User.email (users s) u e Hnd Hu He).
    cbn [bcrypt_compare_js ret].
    destruct (bcrypt_compare p (User.password u)); reflexivity.
Qed.

(* ================================================================== *)
(** ** Submitting, listing and updating applications: the other paths *)

(** X10.  A submission by a stored candidate for a stored job, with a body
    the schema accepts whose four fields are strings, is answered 201 when
    the candidate has no application to that job yet.  One application is
    appended: the candidate's, to that job, with status Applied, [isApplied]
    true and the four fields of the body. *)
Theorem application_creates_application :
  forall d userId param_id b s u j edu exp ski res,
    field b "education" = JStr edu -> field b "experience" = JStr exp ->
    field b "skills" = JStr ski -> field b "resume" = JStr res ->
    applicationValidation (JStr edu) (JStr exp) (JStr ski) (JStr res) = true ->
    param_id <> "" -> In j (jobs s) -> Job.id j = param_id ->
    resolves_to s userId u -> User.role u = Candidate ->
    applications_of userId param_id s = [] ->
    (forall a, In a (jobApplications s) -> jobApplication.id a <> uuid d) ->
    application d (Some userId) param_id (Some b) s
    = (json (Result true "Application created successfully"
               (CreatedApplication
                  (jobApplication.mk (uuid d) userId (Some param_id) (Some Applied)
                     true res ski exp edu (now d)))) 201,
       with_jobApplications
         (jobApplications s
          ++ [jobApplication.mk (uuid d) userId (Some param_id) (Some Applied)
                true res ski exp edu (now d)]) s).
Proof.
  intros d userId param_id b s u j edu exp ski res Eedu Eexp Eski Eres V Hne Hj Hid
         Hu Hrole Hnone Hfresh.
  unfold application, try_catch, bind, req_json. cbn [ret].
  rewrite Eedu, Eexp, Eski, Eres, V. cbn [negb].
  rewrite (or_undefined_nonempty _ Hne).
  destruct (job_findUnique_existing s j Hj) as [j' [Hf [Hj' Hjid]]].
  rewrite Hid in Hf, Hjid. rewrite Hf.
  destruct (findFirst_same_role s userId u Candidate Hu Hrole) as [v [Hv [Hvin [Hvid _]]]].
  rewrite Hv. unfold prisma_jobApplication_findFirst. rewrite Hvid, Hjid.
  destruct (find _ (jobApplications s)) as [a|] eqn:Fa.
  { apply find_some_spec in Fa as [Ha Pa].
    assert (In a (applications_of userId param_id s)) as Hin
      by (apply filter_In; split; assumption).
    rewrite Hnone in Hin. contradiction. }
  unfold prisma_jobApplication_create, data_string.
  destruct (existsb (fun a => jobApplication.id a =? uuid d) (jobApplications s)) eqn:X.
  { apply existsb_exists in X as [a [Ha E]]. apply String.eqb_eq in E.
    now elim (Hfresh a Ha). }
  rewrite (existsb_of_In _ (fun u0 => User.id u0 =? userId) (users s) v Hvin)
    by (rewrite Hvid; apply String.eqb_refl).
  rewrite (existsb_of_In _ (fun j0 => Job.id j0 =? param_id) (jobs s) j' Hj')
    by (rewrite Hjid; apply String.eqb_refl).
  reflexivity.
Qed.

(** X11.  A submission with a body the schema accepts for an id that names
    no stored job is answered 401 "Job not found" and stores nothing,
    whoever the caller is: the job is looked up before the caller. *)
Theorem application_for_missing_job :
  forall d userId param_id b s,
    applicationValidation (field b "education") (field b "experience")
      (field b "skills") (field b "resume") = true ->
    param_id <> "" ->
    (forall j, In j (jobs s) -> Job.id j <> param_id) ->
    application d userId param_id (Some b) s
    = (json (Result false "Job not found" NoData) 401, s).
Proof.
  intros d userId param_id b s V Hne Hnone.
  unfold application, try_catch, bind, req_json. cbn [ret]. rewrite V. cbn [negb].
  rewrite (or_undefined_nonempty _ Hne). unfold prisma_job_findUnique.
  rewrite find_none_of_all; [reflexivity|].
  intros j Hj. apply String.eqb_neq. now apply Hnone.
Qed.

(** X12.  For a caller whose row has role Recruiter and any stored job, the
    caller's own or not, the applications of the job are answered 200: all
    the applications to that job and no others, in table order, and, when
    the foreign keys hold, each with the whole stored row of its applicant
    and with a stored job of that id.  The store is left as it was. *)
Theorem allapplications_lists_for_any_recruiter :
  forall userId param_id s u j,
    param_id <> "" -> In j (jobs s) -> Job.id j = param_id ->
    resolves_to s userId u -> User.role u = Recruiter ->
    exists listed,
      allapplications (Some userId) param_id s
      = (json (Result true "Fetched applications successfully"
                 (ApplicationList listed)) 200, s)
      /\ map application_row listed
         = filter (fun a => option_string_eqb (jobApplication.jobId a) param_id)
                  (jobApplications s)
      /\ (referential_integrity s ->
          forall x, In x listed ->
            (exists row, applicant x = Some row /\ In row (users s)
                         /\ User.id row = jobApplication.applicantId (application_row x))
            /\ (exists j', job x = Some j' /\ In j' (jobs s) /\ Job.id j' = param_id)).
Proof.
  intros userId param_id s u j Hne Hj Hid Hu Hrole.
  destruct (job_findUnique_existing s j Hj) as [j' [Hf _]]. rewrite Hid in Hf.
  destruct (findFirst_same_role s userId u Recruiter Hu Hrole) as [v [Hv _]].
  eexists. split; [|split].
  - unfold allapplications, try_catch, bind.
    apply String.eqb_neq in Hne. rewrite Hne, Hf, Hv.
    unfold prisma_jobApplication_findMany. reflexivity.
  - rewrite map_map. cbn [application_row]. apply map_id.
  - intros Hfk x Hx. apply in_map_iff in Hx as [a [<- Ha]].
    apply filter_In in Ha as [Ha Pa]. cbn [applicant job application_row].
    destruct Hfk as [_ [_ [Happ [Hjob _]]]]. split.
    + destruct (Happ a Ha) as [row [Hrow Hrid]].
      destruct (find_some_of_In _
                  (fun u0 => User.id u0 =? jobApplication.applicantId a)
                  (users s) row Hrow) as [row' [Hfr [Hin' P]]];
        [rewrite Hrid; apply String.eqb_refl|].
      exists row'. apply String.eqb_eq in P. auto.
    + destruct (jobApplication.jobId a) as [i|] eqn:Ei; [|discriminate].
      simpl in Pa. apply String.eqb_eq in Pa. subst i.
      destruct (Hjob a param_id Ha Ei) as [j0 [Hj0 Hj0id]].
      destruct (find_some_of_In _
                  (fun j1 => option_string_eqb (Some param_id) (Job.id j1))
                  (jobs s) j0 Hj0) as [j1 [Hfj [Hin1 P1]]];
        [simpl; rewrite Hj0id; apply String.eqb_refl|].
      exists j1. simpl in P1. apply String.eqb_eq in P1. auto.
Qed.

(** Every run of the status route leaves the store as it was, or rewrites
    the status of the applications of one id. *)
Lemma put_status_cases :
  forall userId raw s,
    snd (put_status userId raw s) = s
    \/ (exists i st,
          snd (put_status userId raw s)
          = with_jobApplications
              (map (fun x => if jobApplication.id x =? i
                             then jobApplication.set_status st x else x)
                   (jobApplications s)) s).
Proof.
  intros userId raw s. unfold put_status, try_catch, bind, req_json.
  destruct raw as [b|]; [|left; reflexivity]. cbn [ret].
  destruct (statusValidation _ _); [|left; reflexivity]. cbn [negb].
  unfold prisma_user_findFirst.
  destruct (find _ (users s)); [|left; reflexivity].
  unfold prisma_jobApplication_findUnique.
  destruct (field b "applicationId"); try (left; reflexivity).
  destruct (find _ (jobApplications s)) as [a|]; [|left; reflexivity].
  unfold prisma_jobApplication_update_status.
  destruct (find _ (jobApplications s)); [|left; reflexivity].
  destruct (field b "status") eqn:Es; try (left; reflexivity).
  - right. exists (jobApplication.id a), None. reflexivity.
  - cbn [status_of_jsval].
    destruct (applicationStatus_of_string s1) as [st|]; [|left; reflexivity].
    right. exists (jobApplication.id a), (Some st). reflexivity.
Qed.

(** X13.  Whatever the request, the status route writes nothing but the
    [status] column of applications: users, companies, jobs and bookmarks are
    as before, and so is every application once its status is set aside; no
    application is added or removed. *)
Theorem put_status_touches_only_status :
  forall userId raw s,
    users (snd (put_status userId raw s)) = users s
    /\ companies (snd (put_status userId raw s)) = companies s
    /\ jobs (snd (put_status userId raw s)) = jobs s
    /\ savedJobs (snd (put_status userId raw s)) = savedJobs s
    /\ map besides_status (jobApplications (snd (put_status userId raw s)))
       = map besides_status (jobApplications s).
Proof.
  intros userId raw s.
  destruct (put_status_cases userId raw s) as [-> | [i [st ->]]].
  - repeat split; reflexivity.
  - cbn [users companies jobs savedJobs jobApplications with_jobApplications].
    repeat (split; [reflexivity|]).
    rewrite map_map. apply map_ext. intros x.
    destruct (jobApplication.id x =? i); reflexivity.
Qed.

(** X14.  A status update by a caller whose row has role Recruiter, with a
    body the schema accepts, for an id that names no stored application is
    answered 404 and changes nothing. *)
Theorem put_status_for_missing_application :
  forall userId b s u i,
    resolves_to s userId u -> User.role u = Recruiter ->
    field b "applicationId" = JStr i ->
    statusValidation (JStr i) (field b "status") = true ->
    (forall a, In a (jobApplications s) -> jobApplication.id a <> i) ->
    put_status (Some userId) (Some b) s
    = (json (Result false "Job application not found" NoData) 404, s).
Proof.
  intros userId b s u i Hu Hrole Ei V Hnone.
  unfold put_status, try_catch, bind, req_json. cbn [ret].
  rewrite Ei, V. cbn [negb].
  destruct (findFirst_same_role s userId u Recruiter Hu Hrole) as [v [Hv _]].
  rewrite Hv. unfold prisma_jobApplication_findUnique.
  rewrite find_none_of_all; [reflexivity|].
  intros a Ha. apply String.eqb_neq. now apply Hnone.
Qed.

(* ================================================================== *)
(** ** Removing the caller *)

Lemma created_by_spec : forall s id jobId,
  created_by s id jobId = true <->
  exists j, In j (jobs s) /\ Job.recruiterId j = id /\ Job.id j = jobId.
Proof.
  intros s id jobId. unfold created_by. rewrite existsb_exists. split.
  - intros [j [Hj P]]. apply andb_true_iff in P as [P1 P2].
    apply String.eqb_eq in P1, P2. eauto.
  - intros [j [Hj [P1 P2]]]. exists j. split; [assumption|].
    apply andb_true_iff. split; now apply String.eqb_eq.
Qed.

Lemma created_by_false : forall s id jobId,
  created_by s id jobId = false <->
  (forall j, In j (jobs s) -> Job.recruiterId j = id -> Job.id j <> jobId).
Proof.
  intros s id jobId. split.
  - intros H j Hj Hr Hi.
    assert (created_by s id jobId = true) by (apply created_by_spec; eauto).
    congruence.
  - intros H. apply not_true_is_false. intros E.
    apply created_by_spec in E as [j [Hj [Hr Hi]]]. now apply (H j).
Qed.

(** The store after the removal of the user [id]. *)
Lemma remove_stored_user :
  forall userId s u,
    userId <> "" -> resolves_to s userId u ->
    remove (Some userId) s
    = (json (Result true "User deleted successfully" NoData) 200,
       snd (prisma_user_delete userId s))
    /\ exists u', prisma_user_delete userId s
                  = (Next u', snd (prisma_user_delete userId s))
                  /\ find (fun x => User.id x =? userId) (users s) = Some u'.
Proof.
  intros userId s u Hne [Hin Hid].
  destruct (find_some_of_In _ (fun x => User.id x =? userId) (users s) u Hin)
    as [u' [Hfind _]]; [rewrite Hid; apply String.eqb_refl|].
  split.
  - unfold remove, try_catch, bind. apply String.eqb_neq in Hne. rewrite Hne.
    unfold prisma_user_delete. rewrite Hfind. reflexivity.
  - exists u'. unfold prisma_user_delete. rewrite Hfind. split; reflexivity.
Qed.

(** X15.  Removing a stored caller is answered 200 and cascades as the
    relations of the schema say.  Afterwards the stored users are the others;
    the jobs are those of other recruiters; the applications are those of
    other applicants to jobs the caller did not create; the bookmarks are
    those of other users on jobs the caller did not create; the companies are
    as before. *)
Theorem remove_cascades :
  forall userId s u,
    userId <> "" -> resolves_to s userId u ->
    fst (remove (Some userId) s)
    = json (Result true "User deleted successfully" NoData) 200
    /\ (forall x, In x (users (snd (remove (Some userId) s))) <->
                  In x (users s) /\ User.id x <> userId)
    /\ (forall j, In j (jobs (snd (remove (Some userId) s))) <->
                  In j (jobs s) /\ Job.recruiterId j <> userId)
    /\ (forall a, In a (jobApplications (snd (remove (Some userId) s))) <->
                  In a (jobApplications s)
                  /\ jobApplication.applicantId a <> userId
                  /\ (forall j, In j (jobs s) -> Job.recruiterId j = userId ->
                                jobApplication.jobId a <> Some (Job.id j)))
    /\ (forall sj, In sj (savedJobs (snd (remove (Some userId) s))) <->
                   In sj (savedJobs s)
                   /\ SavedJobs.userId sj <> userId
                   /\ (forall j, In j (jobs s) -> Job.recruiterId j = userId ->
                                 SavedJobs.jobId sj <> Job.id j))
    /\ companies (snd (remove (Some userId) s)) = companies s.
Proof.
  intros userId s u Hne Hu.
  destruct (remove_stored_user userId s u Hne Hu) as [Hrun [u' [_ Hfind]]].
  rewrite Hrun. cbn [fst snd]. unfold prisma_user_delete. rewrite Hfind.
  cbn [snd users jobs jobApplications savedJobs companies].
  split; [reflexivity|]. split; [|split; [|split; [|split; [|reflexivity]]]].
  - intros x. rewrite filter_In, negb_true_iff, String.eqb_neq. reflexivity.
  - intros j. rewrite filter_In, negb_true_iff, String.eqb_neq. reflexivity.
  - intros a. rewrite filter_In, andb_true_iff, !negb_true_iff, String.eqb_neq.
    destruct (jobApplication.jobId a) as [i|].
    + rewrite created_by_false. split.
      * intros [Ha [Hap Hj]]. repeat split; try assumption.
        intros j Hin Hr E. injection E as ->. now apply (Hj j).
      * intros [Ha [Hap Hj]]. repeat split; try assumption.
        intros j Hin Hr E. apply (Hj j Hin Hr). now rewrite E.
    + split.
      * intros [Ha [Hap _]]. repeat split; try assumption. discriminate.
      * intros [Ha [Hap _]]. repeat split; assumption.
  - intros sj. rewrite filter_In, andb_true_iff, !negb_true_iff, String.eqb_neq.
    rewrite created_by_false. split.
    + intros [Ha [Hap Hj]]. repeat split; try assumption.
      intros j Hin Hr E. now apply (Hj j Hin Hr).
    + intros [Ha [Hap Hj]]. repeat split; try assumption.
      intros j Hin Hr E. now apply (Hj j Hin Hr).
Qed.

(** X16.  Removal without a stored caller.  A request whose URL carries
    "/signin" or "/signup" reaches the route with no [userId] and is answered
    400 "User ID is required"; a caller whose id names no stored row is
    answered 500; neither changes the store.  In particular a removal that
    was answered 200, sent again, is answered 500. *)
Theorem remove_without_a_stored_caller :
  forall url authorization userId s,
    userId <> "" ->
    (includes "/signin" url || includes "/signup" url = true ->
     userRouter_post_remove url authorization s
     = (json (Result false "User ID is required" NoData) 400, s))
    /\ ((forall u, In u (users s) -> User.id u <> userId) ->
        remove (Some userId) s
        = (json (Result false "Server error during deleting user"
                   (ErrorDetail "Record to delete does not exist")) 500, s))
    /\ (status (fst (remove (Some userId) s)) = 200 ->
        remove (Some userId) (snd (remove (Some userId) s))
        = (json (Result false "Server error during deleting user"
                   (ErrorDetail "Record to delete does not exist")) 500,
           snd (remove (Some userId) s))).
Proof.
  intros url authorization userId s Hne.
  assert (forall t, (forall u, In u (users t) -> User.id u <> userId) ->
                    remove (Some userId) t
                    = (json (Result false "Server error during deleting user"
                               (ErrorDetail "Record to delete does not exist")) 500, t))
    as Hmissing.
  { intros t Hnone. unfold remove, try_catch, bind.
    apply String.eqb_neq in Hne. rewrite Hne. unfold prisma_user_delete.
    rewrite find_none_of_all; [reflexivity|].
    intros u Hu. apply String.eqb_neq. now apply Hnone. }
  split; [|split].
  - intros Hopen. unfold userRouter_post_remove, userRouter_use, behind.
    rewrite Hopen. reflexivity.
  - apply Hmissing.
  - intros H200. apply Hmissing. intros x Hx.
    unfold remove, try_catch, bind in Hx, H200.
    destruct (userId =? "") eqn:E; [discriminate H200|].
    unfold prisma_user_delete in Hx, H200.
    destruct (find _ (users s)); [|discriminate H200].
    cbn [snd users] in Hx. apply filter_In in Hx as [_ Hx].
    now apply negb_true_iff, String.eqb_neq in Hx.
Qed.

(* ================================================================== *)
(** ** Companies: creation and lookup *)

(** Every run of the create route either leaves the store as it was and does
    not answer 200, or answers 200 and appends one company with a fresh id
    and a name no stored company had. *)
Lemma company_create_cases :
  forall d raw s,
    (snd (company_create d raw s) = s /\ status (fst (company_create d raw s)) <> 200)
    \/ (exists b n l,
          raw = Some b /\ field b "name" = JStr n /\ field b "logo" = JStr l
          /\ (forall c, In c (companies s) -> Company.name c <> n)
          /\ (forall c, In c (companies s) -> Company.id c <> uuid d)
          /\ company_create d raw s
             = (json (Result true "Company created successfully"
                        (CreatedCompany (Company.mk (uuid d) n l))) 200,
                with_companies (companies s ++ [Company.mk (uuid d) n l]) s)).
Proof.
  intros d raw s. unfold company_create, try_catch, bind, req_json.
  destruct raw as [b|]; [|left; split; [reflexivity | discriminate]]. cbn [ret].
  destruct (companyValidation _ _); [|left; split; [reflexivity | discriminate]].
  cbn [negb]. unfold prisma_company_findFirst, prisma_company_create, data_string.
  destruct (field b "name") as [| | | |n| |] eqn:En;
    try (left; split; [reflexivity | discriminate]).
  - destruct (hd_error (companies s)); left; split; reflexivity || discriminate.
  - destruct (find _ (companies s)) as [c|] eqn:Fn;
      [left; split; [reflexivity | discriminate]|].
    destruct (field b "logo") as [| | | |l| |] eqn:El;
      try (left; split; [reflexivity | discriminate]).
    destruct (existsb (fun c => Company.id c =? uuid d) (companies s)) eqn:X;
      [left; split; [reflexivity | discriminate]|].
    right. exists b, n, l. split; [reflexivity|]. split; [exact En|].
    split; [exact El|]. split; [|split; [|reflexivity]].
    + intros c Hc E.
      assert (find (fun c0 => Company.name c0 =? n) (companies s) <> None);
        [|contradiction].
      destruct (find_some_of_In _ (fun c0 => Company.name c0 =? n) (companies s) c Hc)
        as [c' [Hf _]]; [now apply String.eqb_eq | congruence].
    + intros c Hc E.
      assert (existsb (fun c0 => Company.id c0 =? uuid d) (companies s) = true);
        [|congruence].
      apply (existsb_of_In _ _ _ c Hc). now apply String.eqb_eq.
Qed.

(** X17.  Create then find.  After a creation that was answered 200, looking
    up the id the creation drew is answered 200 with the company that was
    created, whose name and logo are those of the creation's body; the
    lookup changes nothing. *)
Theorem company_create_then_find :
  forall d b b' s,
    status (fst (company_create d (Some b) s)) = 200 ->
    field b' "id" = JStr (uuid d) ->
    exists c,
      fst (company_create d (Some b) s)
      = json (Result true "Company created successfully" (CreatedCompany c)) 200
      /\ Company.id c = uuid d
      /\ field b "name" = JStr (Company.name c)
      /\ field b "logo" = JStr (Company.logo c)
      /\ company_find (Some b') (snd (company_create d (Some b) s))
         = (Succeeded 200 (Some "Company fetched successfully") c,
            snd (company_create d (Some b) s)).
Proof.
  intros d b b' s H200 Eid.
  destruct (company_create_cases d (Some b) s)
    as [[_ Hst] | [b0 [n [l [Hb [En [El [_ [Hfresh Hrun]]]]]]]]]; [elim (Hst H200)|].
  injection Hb as <-. exists (Company.mk (uuid d) n l). rewrite Hrun.
  cbn [fst snd Company.id Company.name Company.logo].
  split; [reflexivity|]. split; [reflexivity|]. split; [exact En|]. split; [exact El|].
  unfold company_find, try_catch_answer, bind, prisma_company_findUnique.
  rewrite Eid. cbn [companies with_companies].
  rewrite (find_app_last _ (fun c => Company.id c =? uuid d) (companies s)
             (Company.mk (uuid d) n l)).
  - reflexivity.
  - intros c Hc. apply String.eqb_neq. now apply Hfresh.
  - apply String.eqb_refl.
Qed.

Lemma NoDup_snoc : forall (A : Type) (l : list A) (x : A),
  NoDup l -> ~ In x l -> NoDup (l ++ [x]).
Proof.
  intros A l x Hl Hx. induction l as [|a l IH]; simpl.
  - constructor; [intros [] | constructor].
  - inversion Hl as [|? ? Ha Hl']; subst. constructor.
    + intros Hin. apply in_app_or in Hin as [Hin|[->|[]]]; [contradiction|].
      apply Hx. now left.
    + apply IH; [assumption|]. intros Hin. apply Hx. now right.
Qed.

Lemma not_in_map_key : forall (A : Type) (key : A -> string) (l : list A) (k : string),
  (forall x, In x l -> key x <> k) -> ~ In k (map key l).
Proof.
  intros A key l k H Hin. apply in_map_iff in Hin as [x [Hk Hx]]. now apply (H x).
Qed.

(** X18.  The create route keeps company names distinct: whatever the
    request, if no two stored companies share a name before, none do after.
    In particular a creation that was answered 200, sent again, is answered
    400 "Company Already exists with this name" and stores nothing. *)
Theorem company_create_keeps_names_distinct :
  forall d raw s,
    (NoDup (map Company.name (companies s)) ->
     NoDup (map Company.name (companies (snd (company_create d raw s)))))
    /\ (forall d',
          status (fst (company_create d raw s)) = 200 ->
          company_create d' raw (snd (company_create d raw s))
          = (json (Result false "Company Already exists with this name" NoData) 400,
             snd (company_create d raw s))).
Proof.
  intros d raw s.
  destruct (company_create_cases d raw s)
    as [[Hs Hst] | [b [n [l [Hb [En [El [Hname [_ Hrun]]]]]]]]].
  - split; [now rewrite Hs | intros d' H200; elim (Hst H200)].
  - rewrite Hrun. cbn [fst snd companies with_companies]. split.
    + intros Hnd. rewrite map_app. apply NoDup_snoc; [assumption|].
      now apply not_in_map_key.
    + intros d' _. subst raw.
      unfold company_create, try_catch, bind, req_json. cbn [ret].
      assert (companyValidation (field b "name") (field b "logo") = true) as V.
      { unfold company_create, try_catch, bind, req_json in Hrun. cbn [ret] in Hrun.
        destruct (companyValidation _ _); [reflexivity | discriminate Hrun]. }
      rewrite V, En. cbn [negb]. unfold prisma_company_findFirst.
      cbn [companies with_companies].
      rewrite (find_app_last _ (fun c => Company.name c =? n) (companies s)
                 (Company.mk (uuid d) n l)).
      * reflexivity.
      * intros c Hc. apply String.eqb_neq. now apply Hname.
      * apply String.eqb_refl.
Qed.

(** X19.  Refusals of the lookup route.  The body is read before the [try],
    so a body that is not JSON throws past the route's own [catch].  A body
    whose [id] is absent or not a string is answered 500; an id that names no
    stored company is answered 400 "Company not Exists".  None changes the
    store. *)
Theorem company_find_refusals :
  forall b s,
    company_find None s = (Uncaught "Unexpected end of JSON input", s)
    /\ (is_string (field b "id") = false ->
        company_find (Some b) s
        = (Failed (json (Result false "Server error during fetching company"
                           (ErrorDetail "Argument `where` needs at least one of `id`"))
                     500), s))
    /\ (forall i,
          field b "id" = JStr i ->
          (forall c, In c (companies s) -> Company.id c <> i) ->
          company_find (Some b) s
          = (Failed (json (Result false "Company not Exists" NoData) 400), s)).
Proof.
  intros b s. split; [reflexivity|]. split.
  - intros Hns. unfold company_find, try_catch_answer, bind, prisma_company_findUnique.
    destruct (field b "id"); try reflexivity. discriminate Hns.
  - intros i Ei Hnone.
    unfold company_find, try_catch_answer, bind, prisma_company_findUnique.
    rewrite Ei, find_none_of_all; [reflexivity|].
    intros c Hc. apply String.eqb_neq. now apply Hnone.
Qed.

(* ================================================================== *)
(** ** Invariants of the store across the routes that write *)

Lemma has_key : forall (A : Type) (key : A -> string) (l : list A) (k : string),
  (exists x, In x l /\ key x = k) <-> In k (map key l).
Proof.
  intros A key l k. rewrite in_map_iff. split; intros [x [H1 H2]]; eauto.
Qed.

(** Foreign keys survive a step that keeps the keys of the referenced tables,
    keeps jobs and bookmarks, and whose applications refer as stored ones did
    or to stored rows. *)
Lemma referential_integrity_step : forall s s',
  referential_integrity s ->
  (forall k, In k (map User.id (users s)) -> In k (map User.id (users s'))) ->
  (forall k, In k (map Company.id (companies s)) -> In k (map Company.id (companies s'))) ->
  jobs s' = jobs s -> savedJobs s' = savedJobs s ->
  (forall a, In a (jobApplications s') ->
     (exists a0, In a0 (jobApplications s)
                 /\ jobApplication.applicantId a = jobApplication.applicantId a0
                 /\ jobApplication.jobId a = jobApplication.jobId a0)
     \/ (In (jobApplication.applicantId a) (map User.id (users s'))
         /\ forall i, jobApplication.jobId a = Some i -> In i (map Job.id (jobs s')))) ->
  referential_integrity s'.
Proof.
  intros s s' [Hjr [Hjc [Hau [Haj [Hsu Hsj]]]]] Hu Hc Hj Hs Ha.
  unfold referential_integrity. rewrite Hj, Hs.
  split; [|split; [|split; [|split; [|split]]]].
  - intros j Hin. apply has_key, Hu, has_key. now apply Hjr.
  - intros j c Hin Hco. apply has_key, Hc, has_key. now apply (Hjc j).
  - intros a Hin. apply has_key. destruct (Ha a Hin) as [[a0 [H0 [E1 _]]] | [H1 _]].
    + rewrite E1. apply Hu, has_key. now apply Hau.
    + exact H1.
  - intros a i Hin Hi. destruct (Ha a Hin) as [[a0 [H0 [_ E2]]] | [_ H2]].
    + rewrite E2 in Hi. now apply (Haj a0).
    + rewrite <- Hj. apply has_key. now apply H2.
  - intros sj Hin. apply has_key, Hu, has_key. now apply Hsu.
  - intros sj Hin. now apply Hsj.
Qed.

(** An update whose data carries the key [name] is refused. *)
Lemma prisma_user_update_name_refused : forall userId v data s,
  snd (prisma_user_update userId (("name", v) :: data) s) = s
  /\ exists e, fst (prisma_user_update userId (("name", v) :: data) s) = Throw e.
Proof.
  intros userId v data s. unfold prisma_user_update.
  destruct userId as [i|]; [|split; [reflexivity | eexists; reflexivity]].
  destruct (find _ (users s)); [|split; [reflexivity | eexists; reflexivity]].
  rewrite User_assign_all_name. split; [reflexivity | eexists; reflexivity].
Qed.

(** Every run of the update route leaves the store as it was, or replaces
    the rows of one id by a row of that id, ids and emails staying distinct. *)
Lemma update_cases :
  forall userId raw s,
    snd (update userId raw s) = s
    \/ (exists i u',
          snd (update userId raw s) = with_users (replace_user i u' (users s)) s
          /\ User.id u' = i
          /\ NoDup (map User.id (replace_user i u' (users s)))
          /\ NoDup (map User.email (replace_user i u' (users s)))).
Proof.
  intros userId raw s. unfold update, try_catch, bind, req_json.
  destruct raw as [b|]; [|left; reflexivity]. cbn [ret].
  destruct (truthy (field b "name")) eqn:Hname.
  - left. destruct (truthy (field b "password")).
    + unfold bcrypt_hash_js. destruct (field b "password"); try reflexivity.
      cbn [ret app].
      destruct (prisma_user_update_name_refused userId (field b "name")
                  [("password", JStr (bcrypt_hash s0))] s) as [Hs [e He]].
      destruct (prisma_user_update userId _ s) as [o s']. cbn [fst snd] in *.
      subst o s'. reflexivity.
    + cbn [ret app].
      destruct (prisma_user_update_name_refused userId (field b "name") [] s)
        as [Hs [e He]].
      destruct (prisma_user_update userId _ s) as [o s']. cbn [fst snd] in *.
      subst o s'. reflexivity.
  - assert (forall data,
               (forall u0, exists u1, User_assign_all u0 data = Some u1
                                      /\ User.id u1 = User.id u0) ->
               snd (prisma_user_update userId data s) = s
               \/ (exists i u',
                     prisma_user_update userId data s
                     = (Next u', with_users (replace_user i u' (users s)) s)
                     /\ User.id u' = i
                     /\ NoDup (map User.id (replace_user i u' (users s)))
                     /\ NoDup (map User.email (replace_user i u' (users s)))))
      as Hupd.
    { intros data Hdata. unfold prisma_user_update.
      destruct userId as [i|]; [|left; reflexivity].
      destruct (find _ (users s)) as [u0|] eqn:Hf; [|left; reflexivity].
      destruct (Hdata u0) as [u1 [Hassign Hid1]]. rewrite Hassign.
      destruct (distinct (map User.id (replace_user i u1 (users s)))) eqn:D1;
        [|left; reflexivity].
      destruct (distinct (map User.email (replace_user i u1 (users s)))) eqn:D2;
        [|left; reflexivity].
      right. exists i, u1. split; [reflexivity|]. split.
      - apply find_some_spec in Hf as [_ Hf]. apply String.eqb_eq in Hf. congruence.
      - split; now apply distinct_NoDup. }
    destruct (truthy (field b "password")).
    + unfold bcrypt_hash_js. destruct (field b "password"); try (left; reflexivity).
      cbn [ret app].
      destruct (Hupd [("password", JStr (bcrypt_hash s0))]) as [Hs | [i [u' [Hrun H]]]].
      * intros u0. rewrite User_assign_password. eauto.
      * left. destruct (prisma_user_update userId _ s) as [o s']. cbn [snd] in Hs.
        subst s'. destruct o; reflexivity.
      * right. exists i, u'. rewrite Hrun. split; [reflexivity | exact H].
    + cbn [ret app].
      destruct (Hupd []) as [Hs | [i [u' [Hrun H]]]].
      * intros u0. exists u0. split; reflexivity.
      * left. destruct (prisma_user_update userId _ s) as [o s']. cbn [snd] in Hs.
        subst s'. destruct o; reflexivity.
      * right. exists i, u'. rewrite Hrun. split; [reflexivity | exact H].
Qed.

(** Every run of the submit route leaves the store as it was, or appends one
    application with a fresh id that refers to a stored user and a stored
    job. *)
Lemma application_store_cases :
  forall d userId param_id raw s,
    snd (application d userId param_id raw s) = s
    \/ (exists x,
          snd (application d userId param_id raw s)
          = with_jobApplications (jobApplications s ++ [x]) s
          /\ jobApplication.id x = uuid d
          /\ (forall a, In a (jobApplications s) -> jobApplication.id a <> uuid d)
          /\ In (jobApplication.applicantId x) (map User.id (users s))
          /\ (forall i, jobApplication.jobId x = Some i -> In i (map Job.id (jobs s)))).
Proof.
  intros d userId param_id raw s.
  unfold application, try_catch, bind, req_json.
  destruct raw as [b|]; [|left; reflexivity]. cbn [ret].
  destruct (applicationValidation _ _ _ _); [|left; reflexivity]. cbn [negb].
  unfold prisma_job_findUnique.
  destruct (or_undefined param_id) as [i|]; [|left; reflexivity].
  destruct (find _ (jobs s)) as [j|] eqn:Fj; [|left; reflexivity].
  apply find_some_spec in Fj as [Hj _].
  unfold prisma_user_findFirst.
  destruct (find _ (users s)) as [c|] eqn:Fc; [|left; reflexivity].
  apply find_some_spec in Fc as [Hc _].
  unfold prisma_jobApplication_findFirst.
  destruct (find _ (jobApplications s)); [left; reflexivity|].
  unfold prisma_jobApplication_create, data_string.
  destruct (field b "education"); try (left; reflexivity).
  destruct (field b "experience"); try (left; reflexivity).
  destruct (field b "resume"); try (left; reflexivity).
  destruct (field b "skills"); try (left; reflexivity).
  destruct (existsb (fun a => jobApplication.id a =? uuid d) (jobApplications s)) eqn:X;
    [left; reflexivity|].
  destruct (existsb _ (users s)); [|left; reflexivity]. cbn [negb].
  destruct (existsb _ (jobs s)); [|left; reflexivity]. cbn [negb].
  right. eexists. split; [reflexivity|].
  cbn [jobApplication.id jobApplication.applicantId jobApplication.jobId].
  split; [reflexivity|]. split; [|split].
  - intros a Ha E.
    assert (existsb (fun a0 => jobApplication.id a0 =? uuid d) (jobApplications s) = true);
      [|congruence].
    apply (existsb_of_In _ _ _ a Ha). now apply String.eqb_eq.
  - now apply in_map.
  - intros i0 E. injection E as <-. now apply in_map.
Qed.

(** Every run of the removal leaves the store as it was, or is the cascade
    from one user id. *)
Lemma remove_store_cases :
  forall userId s,
    snd (remove userId s) = s
    \/ (exists id,
          snd (remove userId s)
          = mkStore
              (filter (fun x => negb (User.id x =? id)) (users s))
              (companies s)
              (filter (fun j => negb (Job.recruiterId j =? id)) (jobs s))
              (filter (fun sj => negb (SavedJobs.userId sj =? id)
                                 && negb (created_by s id (SavedJobs.jobId sj)))
                      (savedJobs s))
              (filter (fun a => negb (jobApplication.applicantId a =? id)
                                && negb (match jobApplication.jobId a with
                                         | Some j => created_by s id j
                                         | None => false
                                         end))
                      (jobApplications s))).
Proof.
  intros userId s. unfold remove, try_catch, bind.
  destruct userId as [id|]; [|left; reflexivity].
  destruct (id =? ""); [left; reflexivity|].
  unfold prisma_user_delete.
  destruct (find _ (users s)); [|left; reflexivity].
  right. exists id. reflexivity.
Qed.

Lemma NoDup_map_filter : forall (A : Type) (key : A -> string) (f : A -> bool) (l : list A),
  NoDup (map key l) -> NoDup (map key (filter f l)).
Proof.
  intros A key f l. induction l as [|x l IH]; intros Hnd; simpl; [constructor|].
  simpl in Hnd. inversion Hnd as [|? ? Hx Hl]; subst.
  destruct (f x); [|now apply IH]. simpl. constructor; [|now apply IH].
  intros Hin. apply Hx. apply in_map_iff in Hin as [y [Hy Hin]].
  apply filter_In in Hin as [Hin _]. rewrite <- Hy. now apply in_map.
Qed.

Lemma replace_user_keeps_ids : forall i u' us,
  User.id u' = i -> forall k, In k (map User.id us) -> In k (map User.id (replace_user i u' us)).
Proof. intros i u' us Hid k Hk. now rewrite replace_user_ids. Qed.

(** X20.  The foreign keys of the schema survive every route that writes:
    from a store in which every reference names a stored row, sign-up, the
    update of the caller, a submission, a status update, the removal of the
    caller and the creation of a company all lead to such a store, whatever
    the request and however it is answered. *)
Theorem writes_keep_referential_integrity :
  forall s,
    referential_integrity s ->
    (forall d raw, referential_integrity (snd (signup d raw s)))
    /\ (forall userId raw, referential_integrity (snd (update userId raw s)))
    /\ (forall d userId param_id raw,
          referential_integrity (snd (application d userId param_id raw s)))
    /\ (forall userId raw, referential_integrity (snd (put_status userId raw s)))
    /\ (forall userId, referential_integrity (snd (remove userId s)))
    /\ (forall d raw, referential_integrity (snd (company_create d raw s))).
Proof.
  intros s Hri. split; [|split; [|split; [|split; [|split]]]].
  - intros d raw.
    destruct (signup_cases d raw s) as [[-> _] | [b [e [p [n [r [role H]]]]]]];
      [assumption|].
    destruct H as [_ [_ [_ [_ [_ [_ [_ [_ [_ ->]]]]]]]]]. cbn [snd].
    apply (referential_integrity_step s); try assumption; try reflexivity.
    + intros k Hk. cbn [users with_users]. rewrite map_app. apply in_or_app. now left.
    + intros k Hk. exact Hk.
    + intros a Ha. left. exists a. auto.
  - intros userId raw.
    destruct (update_cases userId raw s) as [-> | [i [u' [-> [Hid _]]]]]; [assumption|].
    apply (referential_integrity_step s); try assumption; try reflexivity.
    + intros k Hk. cbn [users with_users]. now apply replace_user_keeps_ids.
    + intros k Hk. exact Hk.
    + intros a Ha. left. exists a. auto.
  - intros d userId param_id raw.
    destruct (application_store_cases d userId param_id raw s)
      as [-> | [x [-> [_ [_ [Hu Hj]]]]]]; [assumption|].
    apply (referential_integrity_step s); try assumption; try reflexivity.
    + intros k Hk. exact Hk.
    + intros k Hk. exact Hk.
    + intros a Ha. cbn [jobApplications with_jobApplications] in Ha.
      apply in_app_or in Ha as [Ha | [<- | []]].
      * left. exists a. auto.
      * right. split; [exact Hu | exact Hj].
  - intros userId raw.
    destruct (put_status_cases userId raw s) as [-> | [i [st ->]]]; [assumption|].
    apply (referential_integrity_step s); try assumption; try reflexivity.
    + intros k Hk. exact Hk.
    + intros k Hk. exact Hk.
    + intros a Ha. cbn [jobApplications with_jobApplications] in Ha.
      apply in_map_iff in Ha as [a0 [<- Ha0]]. left. exists a0.
      split; [assumption|]. destruct (jobApplication.id a0 =? i); split; reflexivity.
  - intros userId.
    destruct (remove_store_cases userId s) as [-> | [id ->]]; [assumption|].
    destruct Hri as [Hjr [Hjc [Hau [Haj [Hsu Hsj]]]]].
    unfold referential_integrity. cbn [users companies jobs savedJobs jobApplications].
    split; [|split; [|split; [|split; [|split]]]].
    + intros j Hj. apply filter_In in Hj as [Hj Pj].
      apply negb_true_iff, String.eqb_neq in Pj.
      destruct (Hjr j Hj) as [u [Hu Hid]]. exists u. split; [|assumption].
      apply filter_In. split; [assumption|].
      apply negb_true_iff, String.eqb_neq. congruence.
    + intros j c Hj Hc. apply filter_In in Hj as [Hj _]. now apply (Hjc j).
    + intros a Ha. apply filter_In in Ha as [Ha Pa].
      apply andb_true_iff in Pa as [Pa _].
      apply negb_true_iff, String.eqb_neq in Pa.
      destruct (Hau a Ha) as [u [Hu Hid]]. exists u. split; [|assumption].
      apply filter_In. split; [assumption|].
      apply negb_true_iff, String.eqb_neq. congruence.
    + intros a i Ha Hi. apply filter_In in Ha as [Ha Pa].
      apply andb_true_iff in Pa as [_ Pa]. rewrite Hi in Pa.
      apply negb_true_iff in Pa.
      destruct (Haj a i Ha Hi) as [j [Hj Hid]]. exists j. split; [|assumption].
      apply filter_In. split; [assumption|].
      apply negb_true_iff, String.eqb_neq. intros Hr.
      now apply (proj1 (created_by_false s id i) Pa j Hj Hr).
    + intros sj Hs. apply filter_In in Hs as [Hs Ps].
      apply andb_true_iff in Ps as [Ps _].
      apply negb_true_iff, String.eqb_neq in Ps.
      destruct (Hsu sj Hs) as [u [Hu Hid]]. exists u. split; [|assumption].
      apply filter_In. split; [assumption|].
      apply negb_true_iff, String.eqb_neq. congruence.
    + intros sj Hs. apply filter_In in Hs as [Hs Ps].
      apply andb_true_iff in Ps as [_ Ps]. apply negb_true_iff in Ps.
      destruct (Hsj sj Hs) as [j [Hj Hid]]. exists j. split; [|assumption].
      apply filter_In. split; [assumption|].
      apply negb_true_iff, String.eqb_neq. intros Hr.
      now apply (proj1 (created_by_false s id (SavedJobs.jobId sj)) Ps j Hj Hr).
  - intros d raw.
    destruct (company_create_cases d raw s) as [[-> _] | [b [n [l H]]]]; [assumption|].
    destruct H as [_ [_ [_ [_ [_ ->]]]]]. cbn [snd].
    apply (referential_integrity_step s); try assumption; try reflexivity.
    + intros k Hk. exact Hk.
    + intros k Hk. cbn [companies with_companies]. rewrite map_app.
      apply in_or_app. now left.
    + intros a Ha. left. exists a. auto.
Qed.

(** X21.  The unique columns of the schema survive every route that writes:
    from a store in which user ids, user emails, company ids, job ids,
    bookmark ids and application ids are each distinct, sign-up, the update
    of the caller, a submission, a status update, the removal of the caller
    and the creation of a company all lead to such a store, whatever the
    request and however it is answered. *)
Theorem writes_keep_unique_keys :
  forall s,
    unique_keys s ->
    (forall d raw, unique_keys (snd (signup d raw s)))
    /\ (forall userId raw, unique_keys (snd (update userId raw s)))
    /\ (forall d userId param_id raw,
          unique_keys (snd (application d userId param_id raw s)))
    /\ (forall userId raw, unique_keys (snd (put_status userId raw s)))
    /\ (forall userId, unique_keys (snd (remove userId s)))
    /\ (forall d raw, unique_keys (snd (company_create d raw s))).
Proof.
  intros s Huk. assert (Huk' := Huk).
  destruct Huk' as [Hui [Hue [Hci [Hji [Hsi Hai]]]]].
  split; [|split; [|split; [|split; [|split]]]].
  - intros d raw.
    destruct (signup_cases d raw s) as [[-> _] | [b [e [p [n [r [role H]]]]]]];
      [assumption|].
    destruct H as [_ [_ [_ [_ [_ [_ [_ [Hemail [Hid ->]]]]]]]]]. cbn [snd].
    unfold unique_keys. cbn [users companies jobs savedJobs jobApplications with_users].
    rewrite !map_app. cbn [map User.id User.email].
    split; [apply NoDup_snoc; [assumption | now apply not_in_map_key]|].
    split; [apply NoDup_snoc; [assumption | now apply not_in_map_key]|].
    repeat split; assumption.
  - intros userId raw.
    destruct (update_cases userId raw s) as [-> | [i [u' [-> [_ [Hids Hemails]]]]]];
      [assumption|].
    unfold unique_keys. cbn [users companies jobs savedJobs jobApplications with_users].
    repeat split; assumption.
  - intros d userId param_id raw.
    destruct (application_store_cases d userId param_id raw s)
      as [-> | [x [-> [Hid [Hfresh _]]]]]; [assumption|].
    unfold unique_keys.
    cbn [users companies jobs savedJobs jobApplications with_jobApplications].
    rewrite map_app. cbn [map]. rewrite Hid.
    repeat (split; [assumption|]).
    apply NoDup_snoc; [assumption | now apply not_in_map_key].
  - intros userId raw.
    destruct (put_status_cases userId raw s) as [-> | [i [st ->]]]; [assumption|].
    unfold unique_keys.
    cbn [users companies jobs savedJobs jobApplications with_jobApplications].
    repeat (split; [assumption|]).
    rewrite map_map.
    rewrite (map_ext _ jobApplication.id); [assumption|].
    intros a. destruct (jobApplication.id a =? i); reflexivity.
  - intros userId.
    destruct (remove_store_cases userId s) as [-> | [id ->]]; [assumption|].
    unfold unique_keys. cbn [users companies jobs savedJobs jobApplications].
    repeat split; try assumption; now apply NoDup_map_filter.
  - intros d raw.
    destruct (company_create_cases d raw s) as [[-> _] | [b [n [l H]]]]; [assumption|].
    destruct H as [_ [_ [_ [_ [Hfresh ->]]]]]. cbn [snd].
    unfold unique_keys.
    cbn [users companies jobs savedJobs jobApplications with_companies].
    rewrite map_app. cbn [map Company.id].
    repeat (split; [assumption|]). split; [|repeat split; assumption].
    apply NoDup_snoc; [assumption | now apply not_in_map_key].
Qed.

Lemma filter_filter_length : forall (A : Type) (p q : A -> bool) (l : list A),
  length (filter p (filter q l)) <= length (filter p l).
Proof.
  intros A p q l. induction l as [|x l IH]; simpl; [lia|].
  destruct (q x), (p x) eqn:Px; simpl; rewrite ?Px; simpl; lia.
Qed.

(** X22.  At most one application per (candidate, job) pair survives the
    routes that write applications without creating them: a status update
    and the removal of a caller take a store with at most one application
    per pair to such a store, whatever the request. *)
Theorem status_and_removal_keep_one_application_per_pair :
  forall s,
    one_application_per_pair s ->
    (forall userId raw, one_application_per_pair (snd (put_status userId raw s)))
    /\ (forall userId, one_application_per_pair (snd (remove userId s))).
Proof.
  intros s Hone. split.
  - intros userId raw.
    destruct (put_status_cases userId raw s) as [-> | [i [st ->]]]; [assumption|].
    intros applicantId jobId. unfold applications_of.
    cbn [jobApplications with_jobApplications].
    assert (forall l,
               length (filter (fun a => (jobApplication.applicantId a =? applicantId)
                                        && option_string_eqb (jobApplication.jobId a) jobId)
                         (map (fun x => if jobApplication.id x =? i
                                        then jobApplication.set_status st x else x) l))
               = length (filter (fun a => (jobApplication.applicantId a =? applicantId)
                                          && option_string_eqb (jobApplication.jobId a)
                                               jobId) l)) as Hlen.
    { induction l as [|x l IH]; [reflexivity|]. cbn [map filter].
      assert ((jobApplication.applicantId
                 (if jobApplication.id x =? i then jobApplication.set_status st x else x)
               =? applicantId)
              && option_string_eqb
                   (jobApplication.jobId
                      (if jobApplication.id x =? i
                       then jobApplication.set_status st x else x)) jobId
              = (jobApplication.applicantId x =? applicantId)
                && option_string_eqb (jobApplication.jobId x) jobId) as ->
        by (destruct (jobApplication.id x =? i); reflexivity).
      destruct ((jobApplication.applicantId x =? applicantId)
                && option_string_eqb (jobApplication.jobId x) jobId);
        simpl; now rewrite IH. }
    rewrite Hlen. apply Hone.
  - intros userId.
    destruct (remove_store_cases userId s) as [-> | [id ->]]; [assumption|].
    intros applicantId jobId. unfold applications_of. cbn [jobApplications].
    eapply Nat.le_trans; [apply filter_filter_length | apply Hone].
Qed.

(** X23.  The routes that only read never write: sign-in, the user search,
    the profile, the list of a job's applications, the list of companies and
    the lookup of a company leave the store exactly as it was, whatever the
    request and however it is answered. *)
Theorem reading_routes_leave_the_store :
  forall s,
    (forall raw, snd (signin raw s) = s)
    /\ (forall query_filter, snd (bulk query_filter s) = s)
    /\ (forall userId, snd (me userId s) = s)
    /\ (forall userId param_id, snd (allapplications userId param_id s) = s)
    /\ snd (company_bulk s) = s
    /\ (forall raw, snd (company_find raw s) = s).
Proof.
  intros s. split; [|split; [|split; [|split; [|split]]]].
  - intros raw. unfold signin, try_catch_answer, bind, req_json.
    destruct raw as [b|]; [|reflexivity]. cbn [ret].
    destruct (signinValidation _ _); [|reflexivity]. cbn [negb].
    unfold prisma_user_findUnique_email.
    destruct (field b "email"); try reflexivity.
    destruct (find _ (users s)); [|reflexivity].
    unfold bcrypt_compare_js. destruct (field b "password"); try reflexivity.
    cbn [ret]. destruct (bcrypt_compare _ _); reflexivity.
  - intros query_filter. reflexivity.
  - intros userId. unfold me, try_catch_answer, bind, prisma_user_findUnique_profile.
    destruct userId as [i|]; [|reflexivity].
    destruct (find _ (users s)); reflexivity.
  - intros userId param_id. unfold allapplications, try_catch, bind.
    destruct (param_id =? ""); [reflexivity|].
    unfold prisma_job_findUnique. destruct (find _ (jobs s)); [|reflexivity].
    unfold prisma_user_findFirst. destruct (find _ (users s)); reflexivity.
  - reflexivity.
  - intros raw. unfold company_find. destruct raw as [b|]; [|reflexivity].
    unfold try_catch_answer, bind, prisma_company_findUnique.
    destruct (field b "id"); try reflexivity.
    destruct (find _ (companies s)); reflexivity.
Qed.

(* ================================================================== *)
(** ** Routes in sequence *)

(** X24.  A submission that was answered 201 shows in the job's list: asked
    afterwards by any caller whose row has role Recruiter, the list of the
    job's applications is answered 200 with the applications the job had
    before followed by the new one, which is the application the submission
    answered with. *)
Theorem application_then_allapplications :
  forall d userId param_id raw s recruiterId r,
    status (fst (application d userId param_id raw s)) = 201 ->
    resolves_to s recruiterId r -> User.role r = Recruiter ->
    exists x listed,
      fst (application d userId param_id raw s)
      = json (Result true "Application created successfully" (CreatedApplication x)) 201
      /\ allapplications (Some recruiterId) param_id
           (snd (application d userId param_id raw s))
         = (json (Result true "Fetched applications successfully"
                    (ApplicationList listed)) 200,
            snd (application d userId param_id raw s))
      /\ map application_row listed
         = filter (fun a => option_string_eqb (jobApplication.jobId a) param_id)
                  (jobApplications s) ++ [x].
Proof.
  intros d userId param_id raw s recruiterId r H201 Hr Hrole.
  destruct (application_cases d userId param_id raw s)
    as [[_ Hst] | [b [j [c [edu [exp [res [ski H]]]]]]]]; [elim (Hst H201)|].
  destruct H as [_ [_ [_ [Hjid [_ [_ [_ [_ [Hrun [Hne [Fj _]]]]]]]]]]].
  exists (submitted d c j edu exp res ski). eexists.
  rewrite Hrun. cbn [fst snd]. split; [reflexivity|]. split.
  - unfold allapplications, try_catch, bind.
    apply String.eqb_neq in Hne. rewrite Hne.
    unfold prisma_job_findUnique. cbn [jobs with_jobApplications]. rewrite Fj.
    destruct (findFirst_same_role s recruiterId r Recruiter Hr Hrole) as [v [Hv _]].
    assert (find (fun x => where_eq (Some recruiterId) (User.id x)
                           && Role_eqb (User.role x) Recruiter) (users s)
            = Some v) as Hfind
      by (unfold prisma_user_findFirst in Hv; congruence).
    unfold prisma_user_findFirst. cbn [users with_jobApplications]. rewrite Hfind.
    unfold prisma_jobApplication_findMany. reflexivity.
  - rewrite map_map. cbn [application_row]. rewrite map_id.
    cbn [jobApplications with_jobApplications]. rewrite filter_app. f_equal.
    cbn [filter submitted jobApplication.jobId option_string_eqb].
    now rewrite Hjid, String.eqb_refl.
Qed.

(** X25.  A status update shows in the applicant's profile.  After a
    recruiter's update of a stored application to one of the four statuses
    (with a body the schema accepts) the profile of a stored applicant lists
    that application with the new status and its other columns as they
    were. *)
Theorem put_status_then_me :
  forall userId b s u a applicationId (st : applicationStatus) applicant,
    resolves_to s userId u -> User.role u = Recruiter ->
    In a (jobApplications s) -> jobApplication.id a = applicationId ->
    field b "applicationId" = JStr applicationId ->
    field b "status" = JStr (applicationStatus_name st) ->
    statusValidation (JStr applicationId) (JStr (applicationStatus_name st)) = true ->
    unique_user_ids s ->
    resolves_to s (jobApplication.applicantId a) applicant ->
    exists p,
      me (Some (jobApplication.applicantId a)) (snd (put_status (Some userId) (Some b) s))
      = (Succeeded 200 None p, snd (put_status (Some userId) (Some b) s))
      /\ In (jobApplication.set_status (Some st) a)
            (map awj_application (profile_jobApplication p)).
Proof.
  intros userId b s u a applicationId st applicant Hu Hrole Ha Hid Fid Fst V Huniq Happ.
  destruct (find_some_of_In _ (fun x => jobApplication.id x =? applicationId)
              (jobApplications s) a Ha) as [a' [Hfind [Ha' Pa']]];
    [rewrite Hid; apply String.eqb_refl|].
  apply String.eqb_eq in Pa'.
  assert (snd (put_status (Some userId) (Some b) s)
          = with_jobApplications
              (map (fun x => if jobApplication.id x =? applicationId
                             then jobApplication.set_status (Some st) x else x)
                   (jobApplications s)) s) as Hrun.
  { unfold put_status, try_catch, bind, req_json. cbn [ret].
    rewrite Fid, Fst, V. cbn [negb].
    destruct (findFirst_same_role s userId u Recruiter Hu Hrole) as [v [Hv _]].
    rewrite Hv. unfold prisma_jobApplication_findUnique. rewrite Hfind.
    unfold prisma_jobApplication_update_status. rewrite Pa', Hfind.
    unfold status_of_jsval. rewrite applicationStatus_of_name. reflexivity. }
  rewrite Hrun.
  set (s' := with_jobApplications _ s).
  assert (unique_user_ids s') as Huniq' by exact Huniq.
  assert (resolves_to s' (jobApplication.applicantId a) applicant) as Happ' by exact Happ.
  exists (profile_of s' applicant). split.
  - unfold me, try_catch_answer, bind, prisma_user_findUnique_profile.
    rewrite (find_by_unique_id s' _ applicant Huniq' Happ'). reflexivity.
  - cbn [profile_of profile_jobApplication]. rewrite map_map.
    cbn [with_job_and_company awj_application]. rewrite map_id.
    apply (Permutation_in _ (Permutation_sym (order_by_Permutation _ _ _))).
    apply filter_In. split.
    + subst s'. cbn [jobApplications with_jobApplications].
      apply in_map_iff. exists a. rewrite Hid, String.eqb_refl. auto.
    + destruct Happ as [_ Hapid]. rewrite Hapid. apply String.eqb_refl.
Qed.

End Routers.

Arguments Failed {A} r.
Arguments Succeeded {A} code message data.
Arguments Uncaught {A} error.

(* ================================================================== *)
(** ** Concrete runs

    The properties above, applied to the small database [ex_store] with the
    schemas [shape_*Validation] and the stand-in services [ex_hash],
    [ex_verify] and [ex_sign]. *)

(** An unauthenticated request for a protected path that carries "/signin"
    in its query string passes the middleware. *)
Lemma userRouter_use_query_string_passes :
  userRouter_use ex_verify "http://localhost:8787/api/v1/user/me?next=/signin" None
  = Proceed None.
Proof.
  apply (proj1 (userRouter_use_open_path_by_containment ex_verify
                  "http://localhost:8787/api/v1/user/me?next=/signin" None)).
  left. exists "http://localhost:8787/api/v1/user/me?next=", "". reflexivity.
Defined.

(** Without the marker the same request is verified and answered 403. *)
Example userRouter_use_protected_path_403 :
  userRouter_use ex_verify "http://localhost:8787/api/v1/user/me" None
  = Denied (json (Msg "Invalid or expired token!!!") 403).
Proof. reflexivity. Qed.

(** Searching "ASHA" finds Asha's whole row; "zzz" finds nobody. *)
Example bulk_finds_asha :
  fst (bulk (Some "ASHA") ex_store)
  = json (Result true "Users fetched successfully" (UserList [ex_candidate])) 200
  /\ fst (bulk (Some "zzz") ex_store)
     = json (Result true "Users fetched successfully" (UserList [])) 200
  /\ fst (bulk None ex_store)
     = json (Result true "Users fetched successfully"
               (UserList [ex_candidate; ex_recruiter])) 200.
Proof. repeat split; reflexivity. Qed.

(** Asha has applied to job-1; her second submission is answered 402. *)
Lemma application_second_submission_run :
  application shape_applicationValidation ex_defaults (Some "u-cand") "job-1"
    (Some ex_body_application) ex_store
  = (json (Result false "You have already applied for this job." NoData) 402, ex_store).
Proof.
  destruct (proj1 (application_second_submission_conflict shape_applicationValidation)
              ex_defaults "u-cand" "job-1" (Some ex_body_application) ex_store
              ex_candidate ex_job_open ex_application) as [Hstore [Hvalid _]].
  - discriminate.
  - simpl; auto.
  - reflexivity.
  - split; [simpl; auto | reflexivity].
  - reflexivity.
  - simpl; auto.
  - reflexivity.
  - reflexivity.
  - apply injective_projections;
      [exact (Hvalid ex_body_application eq_refl eq_refl) | exact Hstore].
Defined.

(** The same second submission with an empty body: the application of Asha
    to job-1 is stored, and the answer is 400 "Validation error", not 402. *)
Lemma application_second_submission_empty_body :
  In ex_application (jobApplications ex_store)
  /\ jobApplication.applicantId ex_application = "u-cand"
  /\ jobApplication.jobId ex_application = Some "job-1"
  /\ resolves_to ex_store "u-cand" ex_candidate
  /\ User.role ex_candidate = Candidate
  /\ application shape_applicationValidation ex_defaults (Some "u-cand") "job-1"
       (Some []) ex_store
     = (json (Result false "Validation error" ValidationIssues) 400, ex_store).
Proof.
  split; [simpl; auto|]. split; [reflexivity|]. split; [reflexivity|].
  split; [split; [simpl; auto | reflexivity]|]. split; reflexivity.
Qed.

(** Ben, a recruiter, submits to job-1 with a well-formed body: 404. *)
Lemma application_by_recruiter_run :
  application shape_applicationValidation ex_defaults (Some "u-rec") "job-1"
    (Some ex_body_application) ex_store
  = (json (Result false "Only Candidate can create Apllications for Job" NoData) 404,
     ex_store).
Proof.
  destruct (application_by_recruiter_forbidden shape_applicationValidation
              ex_defaults "u-rec" "job-1" (Some ex_body_application) ex_store
              ex_recruiter ex_job_open) as [Hstore [Hvalid _]].
  - discriminate.
  - simpl; auto.
  - reflexivity.
  - repeat constructor; simpl; intuition discriminate.
  - split; [simpl; auto | reflexivity].
  - reflexivity.
  - apply injective_projections;
      [exact (Hvalid ex_body_application eq_refl eq_refl) | exact Hstore].
Defined.

(** Ben submits to job-1 with an empty body: 400 "Validation error", not 404. *)
Lemma application_by_recruiter_empty_body :
  resolves_to ex_store "u-rec" ex_recruiter
  /\ User.role ex_recruiter = Recruiter
  /\ In ex_job_open (jobs ex_store) /\ Job.id ex_job_open = "job-1"
  /\ application shape_applicationValidation ex_defaults (Some "u-rec") "job-1"
       (Some []) ex_store
     = (json (Result false "Validation error" ValidationIssues) 400, ex_store).
Proof.
  split; [split; [simpl; auto | reflexivity]|]. split; [reflexivity|].
  split; [simpl; auto|]. split; reflexivity.
Qed.

(** Asha's submission to job-2 is answered 201: a job with that id is stored. *)
Lemma application_created_job_exists :
  exists j, In j (jobs ex_store) /\ Job.id j = "job-2".
Proof.
  apply (proj1 (application_requires_job_only shape_applicationValidation
                  ex_defaults (Some "u-cand") "job-2" (Some ex_body_application)
                  ex_store)).
  left. reflexivity.
Defined.

(** job-2 is closed ([isOpen] is false), and Asha's submission to it is
    answered 201 and stored. *)
Lemma application_to_closed_job_accepted :
  find (fun j => Job.id j =? "job-2") (jobs ex_store) = Some ex_job_closed
  /\ Job.isOpen ex_job_closed = false
  /\ application shape_applicationValidation ex_defaults (Some "u-cand") "job-2"
       (Some ex_body_application) ex_store
     = (json (Result true "Application created successfully"
                (CreatedApplication
                   (submitted ex_defaults ex_candidate ex_job_closed
                      "BSc" "3 years" "cv.pdf" "Rocq"))) 201,
        with_jobApplications
          [ex_application;
           submitted ex_defaults ex_candidate ex_job_closed
             "BSc" "3 years" "cv.pdf" "Rocq"] ex_store).
Proof. repeat split; reflexivity. Qed.

(** Ben moves Asha's application from Hired back to Applied. *)
Lemma put_status_hired_back_to_applied :
  put_status shape_statusValidation (Some "u-rec")
    (Some [("applicationId", JStr "app-1"); ("status", JStr "Applied")]) ex_store
  = (json (Result true "Job application status updated successfully"
             (UpdatedStatus (jobApplication.set_status (Some Applied) ex_application)))
          200,
     with_jobApplications [jobApplication.set_status (Some Applied) ex_application]
       ex_store).
Proof.
  destruct (put_status_persists_any_status shape_statusValidation "u-rec"
              [("applicationId", JStr "app-1"); ("status", JStr "Applied")]
              ex_store ex_recruiter ex_application "app-1" Applied)
    as [a' [Ha' [_ [Hrun _]]]].
  - split; [simpl; auto | reflexivity].
  - reflexivity.
  - simpl; auto.
  - reflexivity.
  - reflexivity.
  - reflexivity.
  - reflexivity.
  - destruct Ha' as [<-|[]]. exact Hrun.
Defined.

(** Asha, a candidate, is refused on both recruiter routes; the status
    update names an application that does not exist. *)
Lemma candidate_forbidden_run :
  allapplications (Some "u-cand") "job-1" ex_store
  = (json (Result false "Only Recruiters can view applications for this job" NoData) 403,
     ex_store)
  /\ put_status shape_statusValidation (Some "u-cand")
       (Some [("applicationId", JStr "no-such-application"); ("status", JStr "Hired")])
       ex_store
     = (json (Result false "User not found or user is not a recruiter" NoData) 403,
        ex_store).
Proof.
  destruct (candidate_forbidden_on_recruiter_routes shape_statusValidation
              "u-cand" ex_store ex_candidate) as [Hlist Hupdate].
  - repeat constructor; simpl; intuition discriminate.
  - split; [simpl; auto | reflexivity].
  - reflexivity.
  - split.
    + apply (Hlist "job-1" ex_job_open); [discriminate | simpl; auto | reflexivity].
    + apply Hupdate. reflexivity.
Defined.

(** Signing up again with Asha's email, other fields well-formed: 409. *)
Lemma signup_registered_email_run :
  signup shape_signupValidation ex_hash ex_sign ex_defaults
    (Some [("email", JStr "asha@example.com"); ("password", JStr "pw-123456");
           ("fullName", JStr "Someone Else"); ("role", JStr "Recruiter")])
    ex_store
  = (json (Result false "User already exists" NoData) 409, ex_store).
Proof.
  destruct (signup_registered_email_conflict shape_signupValidation ex_hash ex_sign
              ex_defaults
              [("email", JStr "asha@example.com"); ("password", JStr "pw-123456");
               ("fullName", JStr "Someone Else"); ("role", JStr "Recruiter")]
              ex_store ex_candidate "asha@example.com") as [Hstore [Hvalid _]].
  - simpl; auto.
  - reflexivity.
  - reflexivity.
  - apply injective_projections; [exact (Hvalid eq_refl) | exact Hstore].
Defined.

(** Signing up with Asha's email and nothing else: the email is registered,
    and the answer is 400 "Validation Error", not 409. *)
Lemma signup_registered_email_other_fields_missing :
  In ex_candidate (users ex_store)
  /\ User.email ex_candidate = "asha@example.com"
  /\ signup shape_signupValidation ex_hash ex_sign ex_defaults
       (Some [("email", JStr "asha@example.com")]) ex_store
     = (json (Result false "Validation Error" ValidationIssues) 400, ex_store).
Proof. split; [simpl; auto|]. split; reflexivity. Qed.

(** Asha renames herself: 500, and her row is as before. *)
Lemma update_with_name_run :
  snd (update ex_hash (Some "u-cand") (Some [("name", JStr "Asha R.")]) ex_store)
  = ex_store
  /\ status (fst (update ex_hash (Some "u-cand") (Some [("name", JStr "Asha R.")])
                    ex_store)) = 500.
Proof.
  apply (update_with_name_answers_500 ex_hash (Some "u-cand")
           [("name", JStr "Asha R.")] ex_store).
  reflexivity.
Defined.

(** Asha, a candidate, creates the company Globex. *)
Lemma company_create_by_candidate :
  companyRouter_post_create shape_companyValidation ex_verify (Some "token-of-asha")
    ex_defaults (Some [("name", JStr "Globex"); ("logo", JStr "globex.png")]) ex_store
  = (json (Result true "Company created successfully"
             (CreatedCompany (Company.mk "fresh-uuid" "Globex" "globex.png"))) 200,
     with_companies [ex_company; Company.mk "fresh-uuid" "Globex" "globex.png"]
       ex_store).
Proof.
  destruct (company_create_consults_no_role shape_companyValidation ex_verify
              (Some "token-of-asha") (Some "u-cand") ex_defaults
              (Some [("name", JStr "Globex"); ("logo", JStr "globex.png")]) ex_store)
    as [_ [_ Hcreate]].
  - reflexivity.
  - apply (Hcreate [("name", JStr "Globex"); ("logo", JStr "globex.png")]
             "Globex" "globex.png"); try reflexivity.
    + intros c [<-|[]]. discriminate.
    + intros c [<-|[]]. discriminate.
Defined.

(** Asha changes her password only: 200, and only her hash changes. *)
Lemma update_password_only_run :
  update ex_hash (Some "u-cand") (Some [("password", JStr "new-secret")]) ex_store
  = (json (Result true "User updated successfully"
             (UpdatedUser (User.mk "u-cand" "Asha Rao" "asha@example.com"
                             "bcrypt:new-secret" Candidate))) 200,
     with_users
       [User.mk "u-cand" "Asha Rao" "asha@example.com" "bcrypt:new-secret" Candidate;
        ex_recruiter] ex_store).
Proof.
  apply (update_password_only ex_hash "u-cand" [("password", JStr "new-secret")]
           ex_store ex_candidate "new-secret").
  - repeat constructor; simpl; intuition discriminate.
  - repeat constructor; simpl; intuition discriminate.
  - split; [simpl; auto | reflexivity].
  - reflexivity.
  - reflexivity.
  - discriminate.
Defined.

(** A submission to job-2 with no credential and "/signin" in the query
    string is stored for Asha, the first candidate of the table. *)
Lemma application_through_open_path_run :
  userRouter_post_application shape_applicationValidation ex_verify
    "http://localhost:8787/api/v1/user/application/job-2?from=/signin" None
    ex_defaults "job-2" (Some ex_body_application) ex_store
  = application shape_applicationValidation ex_defaults None "job-2"
      (Some ex_body_application) ex_store
  /\ exists c a,
       find (fun u => Role_eqb (User.role u) Candidate) (users ex_store) = Some c
       /\ jobApplication.applicantId a = User.id c
       /\ jobApplications
            (snd (application shape_applicationValidation ex_defaults None "job-2"
                    (Some ex_body_application) ex_store))
          = jobApplications ex_store ++ [a].
Proof.
  destruct (application_through_open_path shape_applicationValidation ex_verify
              "http://localhost:8787/api/v1/user/application/job-2?from=/signin" None
              ex_defaults "job-2" (Some ex_body_application) ex_store eq_refl)
    as [Hroute Hstored].
  split; [exact Hroute | apply Hstored; reflexivity].
Defined.

(* ------------------------------------------------------------------ *)
(** *** Runs on the larger database [ex_store_full] *)

Ltac pick_row :=
  first [ now (eexists; split; [left; reflexivity | reflexivity])
        | now (eexists; split; [right; left; reflexivity | reflexivity])
        | now (eexists; split; [right; right; left; reflexivity | reflexivity]) ].

Ltac each_row :=
  repeat match goal with
         | H : _ \/ _ |- _ => destruct H
         | H : False |- _ => destruct H
         | H : In _ _ |- _ => simpl in H
         end.

Lemma ex_store_full_integrity : referential_integrity ex_store_full.
Proof.
  unfold referential_integrity.
  repeat split; intros; each_row; subst; simpl in *; try discriminate; try pick_row.
  - injection H0 as <-. pick_row.
  - injection H0 as <-. pick_row.
  - injection H0 as <-. pick_row.
Qed.

Lemma ex_store_full_keys : unique_keys ex_store_full.
Proof. unfold unique_keys. repeat split; repeat constructor; simpl; intuition discriminate. Qed.

Lemma ex_store_full_one_per_pair : one_application_per_pair ex_store_full.
Proof.
  intros applicantId jobId. unfold applications_of. cbn -[String.eqb].
  destruct ("u-cand" =? applicantId); cbn -[String.eqb]; [|lia].
  destruct ("job-1" =? jobId) eqn:E1, ("job-2" =? jobId) eqn:E2; cbn; try lia.
  apply String.eqb_eq in E1, E2. congruence.
Qed.

Lemma ex_collate_total : forall a b, ex_collate a b = false -> ex_collate b a = true.
Proof.
  intros a b H. unfold ex_collate in *.
  destruct (String.leb_total a b) as [H'|H']; congruence.
Qed.

(** The companies of [ex_store_full] come back as Acme, Zeta. *)
Lemma company_bulk_run :
  exists listed,
    company_bulk ex_collate ex_store_full
    = (Succeeded 200 (Some "Companies fetched successfully") listed, ex_store_full)
    /\ Permutation listed (companies ex_store_full)
    /\ Sorted (fun a b => ex_collate (Company.name a) (Company.name b) = true) listed.
Proof. exact (company_bulk_in_name_order ex_collate ex_store_full ex_collate_total). Defined.

Example company_bulk_acme_then_zeta :
  fst (company_bulk ex_collate ex_store_full)
  = Succeeded 200 (Some "Companies fetched successfully")
      [ex_company; Company.mk "c-2" "Zeta" "zeta.png"].
Proof. vm_compute. reflexivity. Qed.


(** Ben's profile carries, under job-1, Asha's application with her whole
    row, password hash included. *)
Lemma me_created_jobs_run :
  exists p e x,
    me (Some "u-rec") ex_store_full = (Succeeded 200 None p, ex_store_full)
    /\ In e (profile_createdJobs p) /\ In x (jwa_jobApplication e)
    /\ awa_applicant x = Some ex_candidate
    /\ option_map User.password (awa_applicant x) = Some "bcrypt:old-secret".
Proof.
  destruct (me_created_jobs_carry_applicant_rows "u-rec" ex_store_full ex_recruiter)
    as [p [Hrun _]].
  - apply ex_store_full_keys.
  - apply ex_store_full_integrity.
  - split; [simpl; auto | reflexivity].
  - vm_compute in Hrun. injection Hrun as <-.
    eexists. eexists. eexists. split; [reflexivity|].
    split; [left; reflexivity|]. split; [left; reflexivity|]. split; reflexivity.
Defined.

(** The profile route reached through "/signin" in the query string: 500. *)
Lemma me_through_open_path_run :
  userRouter_get_me ex_verify "http://localhost:8787/api/v1/user/me?next=/signin"
    (Some "token-of-asha") ex_store_full
  = (Failed (json (Result false "Server error during fetching user"
                     (ErrorDetail "Argument `where` needs at least one of `id` or `email`"))
               500), ex_store_full).
Proof.
  apply (proj1 (me_without_a_stored_caller ex_verify
                  "http://localhost:8787/api/v1/user/me?next=/signin"
                  (Some "token-of-asha") "nobody" ex_store_full)).
  reflexivity.
Defined.

(** Cara signs up as a recruiter. *)
Lemma signup_creates_user_run :
  signup shape_signupValidation ex_hash ex_sign ex_defaults
    (Some [("email", JStr "cara@example.com"); ("password", JStr "s3cret-pw");
           ("fullName", JStr "Cara Lim"); ("role", JStr "Recruiter")]) ex_store_full
  = (json (Result true "User created successfully"
             (SignedUp (mkPublicUser "fresh-uuid" "cara@example.com" "Cara Lim" Recruiter)
                "jwt:fresh-uuid")) 201,
     with_users
       [ex_candidate; ex_recruiter;
        User.mk "fresh-uuid" "Cara Lim" "cara@example.com" "bcrypt:s3cret-pw" Recruiter]
       ex_store_full).
Proof.
  apply (signup_creates_user shape_signupValidation ex_hash ex_sign ex_defaults
           [("email", JStr "cara@example.com"); ("password", JStr "s3cret-pw");
            ("fullName", JStr "Cara Lim"); ("role", JStr "Recruiter")] ex_store_full
           "cara@example.com" "s3cret-pw" "Cara Lim" "Recruiter" Recruiter);
    try reflexivity.
  - intros u Hu. each_row; subst; discriminate.
  - intros u Hu. each_row; subst; discriminate.
Defined.

(** Cara signs up, then signs in with the same email and password. *)
Lemma signup_then_signin_run :
  exists u,
    users (snd (signup shape_signupValidation ex_hash ex_sign ex_defaults
                  (Some [("email", JStr "cara@example.com"); ("password", JStr "s3cret-pw");
                         ("fullName", JStr "Cara Lim"); ("role", JStr "Recruiter")])
                  ex_store_full))
    = users ex_store_full ++ [u]
    /\ User.email u = "cara@example.com" /\ User.password u = ex_hash "s3cret-pw"
    /\ fst (signup shape_signupValidation ex_hash ex_sign ex_defaults
              (Some [("email", JStr "cara@example.com"); ("password", JStr "s3cret-pw");
                     ("fullName", JStr "Cara Lim"); ("role", JStr "Recruiter")])
              ex_store_full)
       = json (Result true "User created successfully"
                 (SignedUp (public u)
                    (ex_sign (User.id u) (User.email u) (User.fullName u)))) 201
    /\ signin ex_sign shape_signinValidation ex_compare
         (Some [("email", JStr "cara@example.com"); ("password", JStr "s3cret-pw")])
         (snd (signup shape_signupValidation ex_hash ex_sign ex_defaults
                 (Some [("email", JStr "cara@example.com"); ("password", JStr "s3cret-pw");
                        ("fullName", JStr "Cara Lim"); ("role", JStr "Recruiter")])
                 ex_store_full))
       = (Succeeded 200 (Some "User signed in successfully")
            (mkSignedIn (ex_sign (User.id u) (User.email u) (User.fullName u)) u),
          snd (signup shape_signupValidation ex_hash ex_sign ex_defaults
                 (Some [("email", JStr "cara@example.com"); ("password", JStr "s3cret-pw");
                        ("fullName", JStr "Cara Lim"); ("role", JStr "Recruiter")])
                 ex_store_full)).
Proof.
  apply (signup_then_signin shape_signupValidation ex_hash ex_sign shape_signinValidation
           ex_compare ex_defaults
           [("email", JStr "cara@example.com"); ("password", JStr "s3cret-pw");
            ("fullName", JStr "Cara Lim"); ("role", JStr "Recruiter")]
           [("email", JStr "cara@example.com"); ("password", JStr "s3cret-pw")]
           ex_store_full "cara@example.com" "s3cret-pw"); reflexivity.
Defined.

(** Asha signs in with the wrong password: 401.  With her password the
    answer is 200 and carries her row. *)
Lemma signin_run :
  signin ex_sign shape_signinValidation ex_compare
    (Some [("email", JStr "asha@example.com"); ("password", JStr "guess")]) ex_store_full
  = (Failed (json (Result false "Password does not match" NoData) 401), ex_store_full)
  /\ signin ex_sign shape_signinValidation ex_compare
       (Some [("email", JStr "asha@example.com"); ("password", JStr "old-secret")])
       ex_store_full
     = (Succeeded 200 (Some "User signed in successfully")
          (mkSignedIn "jwt:u-cand" ex_candidate), ex_store_full).
Proof.
  split.
  - apply (proj2 (signin_outcomes ex_sign shape_signinValidation ex_compare
                    [("email", JStr "asha@example.com"); ("password", JStr "guess")]
                    ex_store_full "asha@example.com" "guess" eq_refl eq_refl eq_refl)
             ex_candidate).
    + apply ex_store_full_keys.
    + simpl; auto.
    + reflexivity.
  - apply (proj2 (signin_outcomes ex_sign shape_signinValidation ex_compare
                    [("email", JStr "asha@example.com"); ("password", JStr "old-secret")]
                    ex_store_full "asha@example.com" "old-secret" eq_refl eq_refl eq_refl)
             ex_candidate).
    + apply ex_store_full_keys.
    + simpl; auto.
    + reflexivity.
Defined.

(** Asha applies to job-2 in [ex_store], where she has not applied to it. *)
Lemma application_creates_run :
  application shape_applicationValidation ex_defaults (Some "u-cand") "job-2"
    (Some ex_body_application) ex_store
  = (json (Result true "Application created successfully"
             (CreatedApplication
                (jobApplication.mk "fresh-uuid" "u-cand" (Some "job-2") (Some Applied)
                   true "cv.pdf" "Rocq" "3 years" "BSc" 300))) 201,
     with_jobApplications
       [ex_application;
        jobApplication.mk "fresh-uuid" "u-cand" (Some "job-2") (Some Applied)
          true "cv.pdf" "Rocq" "3 years" "BSc" 300] ex_store).
Proof.
  apply (application_creates_application shape_applicationValidation ex_defaults
           "u-cand" "job-2" ex_body_application ex_store ex_candidate ex_job_closed
           "BSc" "3 years" "Rocq" "cv.pdf"); try reflexivity.
  - discriminate.
  - simpl; auto.
  - split; [simpl; auto | reflexivity].
  - intros a Ha. each_row; subst; discriminate.
Defined.

(** A submission for a job id that is not stored, here without a caller. *)
Lemma application_for_missing_job_run :
  application shape_applicationValidation ex_defaults None "job-9"
    (Some ex_body_application) ex_store
  = (json (Result false "Job not found" NoData) 401, ex_store).
Proof.
  apply (application_for_missing_job shape_applicationValidation ex_defaults None
           "job-9" ex_body_application ex_store).
  - reflexivity.
  - discriminate.
  - intros j Hj. each_row; subst; discriminate.
Defined.

(** Ben lists the applications of job-2. *)
Lemma allapplications_run :
  exists listed,
    allapplications (Some "u-rec") "job-2" ex_store_full
    = (json (Result true "Fetched applications successfully" (ApplicationList listed))
            200, ex_store_full)
    /\ map (fun x => jobApplication.id (application_row x)) listed = ["app-2"]
    /\ map applicant listed = [Some ex_candidate].
Proof.
  destruct (allapplications_lists_for_any_recruiter "u-rec" "job-2" ex_store_full
              ex_recruiter ex_job_closed) as [listed [Hrun _]].
  - discriminate.
  - simpl; auto.
  - reflexivity.
  - split; [simpl; auto | reflexivity].
  - reflexivity.
  - exists listed. split; [exact Hrun|].
    vm_compute in Hrun. injection Hrun as <-. split; reflexivity.
Defined.

(** Ben updates an application that does not exist. *)
Lemma put_status_for_missing_application_run :
  put_status shape_statusValidation (Some "u-rec")
    (Some [("applicationId", JStr "app-9"); ("status", JStr "Hired")]) ex_store_full
  = (json (Result false "Job application not found" NoData) 404, ex_store_full).
Proof.
  apply (put_status_for_missing_application shape_statusValidation "u-rec"
           [("applicationId", JStr "app-9"); ("status", JStr "Hired")]
           ex_store_full ex_recruiter "app-9"); try reflexivity.
  - split; [simpl; auto | reflexivity].
  - intros a Ha. each_row; subst; discriminate.
Defined.

(** Ben removes himself: his two jobs go, and with them Asha's two
    applications and her bookmark; Asha and the companies stay. *)
Lemma remove_recruiter_run :
  remove (Some "u-rec") ex_store_full
  = (json (Result true "User deleted successfully" NoData) 200,
     mkStore [ex_candidate] (companies ex_store_full) [] [] []).
Proof.
  destruct (remove_cascades "u-rec" ex_store_full ex_recruiter) as [Hanswer _].
  - discriminate.
  - split; [simpl; auto | reflexivity].
  - apply injective_projections; [exact Hanswer | reflexivity].
Defined.

(** Removal through "/signup" in the query string, and removal twice. *)
Lemma remove_without_caller_run :
  userRouter_post_remove ex_verify
    "http://localhost:8787/api/v1/user/remove?from=/signup" (Some "token-of-ben")
    ex_store_full
  = (json (Result false "User ID is required" NoData) 400, ex_store_full)
  /\ remove (Some "u-rec") (snd (remove (Some "u-rec") ex_store_full))
     = (json (Result false "Server error during deleting user"
                (ErrorDetail "Record to delete does not exist")) 500,
        snd (remove (Some "u-rec") ex_store_full)).
Proof.
  destruct (remove_without_a_stored_caller ex_verify
              "http://localhost:8787/api/v1/user/remove?from=/signup"
              (Some "token-of-ben") "u-rec" ex_store_full) as [Hopen [_ Htwice]].
  - discriminate.
  - split; [apply Hopen | apply Htwice]; reflexivity.
Defined.

(** Globex is created, then found by the id it was given. *)
Lemma company_create_then_find_run :
  exists c,
    fst (company_create shape_companyValidation ex_defaults
           (Some [("name", JStr "Globex"); ("logo", JStr "globex.png")]) ex_store_full)
    = json (Result true "Company created successfully" (CreatedCompany c)) 200
    /\ Company.id c = "fresh-uuid"
    /\ field [("name", JStr "Globex"); ("logo", JStr "globex.png")] "name"
       = JStr (Company.name c)
    /\ field [("name", JStr "Globex"); ("logo", JStr "globex.png")] "logo"
       = JStr (Company.logo c)
    /\ company_find (Some [("id", JStr "fresh-uuid")])
         (snd (company_create shape_companyValidation ex_defaults
                 (Some [("name", JStr "Globex"); ("logo", JStr "globex.png")])
                 ex_store_full))
       = (Succeeded 200 (Some "Company fetched successfully") c,
          snd (company_create shape_companyValidation ex_defaults
                 (Some [("name", JStr "Globex"); ("logo", JStr "globex.png")])
                 ex_store_full)).
Proof.
  apply (company_create_then_find shape_companyValidation ex_defaults
           [("name", JStr "Globex"); ("logo", JStr "globex.png")]
           [("id", JStr "fresh-uuid")] ex_store_full); reflexivity.
Defined.

(** Globex created twice: the second creation is answered 400. *)
Lemma company_create_twice_run :
  company_create shape_companyValidation (mkDefaults "another-uuid" 400)
    (Some [("name", JStr "Globex"); ("logo", JStr "globex.png")])
    (snd (company_create shape_companyValidation ex_defaults
            (Some [("name", JStr "Globex"); ("logo", JStr "globex.png")]) ex_store_full))
  = (json (Result false "Company Already exists with this name" NoData) 400,
     snd (company_create shape_companyValidation ex_defaults
            (Some [("name", JStr "Globex"); ("logo", JStr "globex.png")]) ex_store_full)).
Proof.
  apply (proj2 (company_create_keeps_names_distinct shape_companyValidation ex_defaults
                  (Some [("name", JStr "Globex"); ("logo", JStr "globex.png")])
                  ex_store_full)).
  reflexivity.
Defined.

(** A lookup without an id, and a lookup of an id that is not stored. *)
Lemma company_find_refusals_run :
  company_find (Some []) ex_store_full
  = (Failed (json (Result false "Server error during fetching company"
                     (ErrorDetail "Argument `where` needs at least one of `id`")) 500),
     ex_store_full)
  /\ company_find (Some [("id", JStr "c-9")]) ex_store_full
     = (Failed (json (Result false "Company not Exists" NoData) 400), ex_store_full).
Proof.
  split.
  - apply (proj1 (proj2 (company_find_refusals [] ex_store_full))). reflexivity.
  - apply (proj2 (proj2 (company_find_refusals [("id", JStr "c-9")] ex_store_full))
             "c-9"); [reflexivity|].
    intros c Hc. each_row; subst; discriminate.
Defined.

(** The foreign keys hold after Ben's removal from [ex_store_full]. *)
Lemma removal_keeps_referential_integrity_run :
  referential_integrity (snd (remove (Some "u-rec") ex_store_full)).
Proof.
  apply (writes_keep_referential_integrity shape_signupValidation
           shape_applicationValidation shape_statusValidation shape_companyValidation
           ex_hash ex_sign ex_store_full ex_store_full_integrity).
Defined.

(** The unique columns stay unique after Cara's sign-up. *)
Lemma signup_keeps_unique_keys_run :
  unique_keys
    (snd (signup shape_signupValidation ex_hash ex_sign ex_defaults
            (Some [("email", JStr "cara@example.com"); ("password", JStr "s3cret-pw");
                   ("fullName", JStr "Cara Lim"); ("role", JStr "Recruiter")])
            ex_store_full)).
Proof.
  apply (writes_keep_unique_keys shape_signupValidation shape_applicationValidation
           shape_statusValidation shape_companyValidation ex_hash ex_sign
           ex_store_full ex_store_full_keys).
Defined.

(** At most one application per pair after a status update. *)
Lemma status_update_keeps_one_per_pair_run :
  one_application_per_pair
    (snd (put_status shape_statusValidation (Some "u-rec")
            (Some [("applicationId", JStr "app-2"); ("status", JStr "Interviewing")])
            ex_store_full)).
Proof.
  apply (status_and_removal_keep_one_application_per_pair shape_statusValidation
           ex_store_full ex_store_full_one_per_pair).
Defined.

(** Asha applies to job-2 in [ex_store]; Ben then lists job-2 and sees it. *)
Lemma application_then_allapplications_run :
  exists x listed,
    fst (application shape_applicationValidation ex_defaults (Some "u-cand") "job-2"
           (Some ex_body_application) ex_store)
    = json (Result true "Application created successfully" (CreatedApplication x)) 201
    /\ allapplications (Some "u-rec") "job-2"
         (snd (application shape_applicationValidation ex_defaults (Some "u-cand")
                 "job-2" (Some ex_body_application) ex_store))
       = (json (Result true "Fetched applications successfully" (ApplicationList listed))
               200,
          snd (application shape_applicationValidation ex_defaults (Some "u-cand")
                 "job-2" (Some ex_body_application) ex_store))
    /\ map application_row listed
       = filter (fun a => option_string_eqb (jobApplication.jobId a) "job-2")
                (jobApplications ex_store) ++ [x].
Proof.
  apply (application_then_allapplications shape_applicationValidation ex_defaults
           (Some "u-cand") "job-2" (Some ex_body_application) ex_store "u-rec"
           ex_recruiter).
  - reflexivity.
  - split; [simpl; auto | reflexivity].
  - reflexivity.
Defined.

(** Ben moves app-2 to Interviewing; Asha's profile then shows it so. *)
Lemma put_status_then_me_run :
  exists p,
    me (Some "u-cand")
      (snd (put_status shape_statusValidation (Some "u-rec")
              (Some [("applicationId", JStr "app-2"); ("status", JStr "Interviewing")])
              ex_store_full))
    = (Succeeded 200 None p,
       snd (put_status shape_statusValidation (Some "u-rec")
              (Some [("applicationId", JStr "app-2"); ("status", JStr "Interviewing")])
              ex_store_full))
    /\ In (jobApplication.mk "app-2" "u-cand" (Some "job-2") (Some Interviewing) true
             "cv.pdf" "Rocq" "3 years" "BSc" 150)
          (map awj_application (profile_jobApplication p)).
Proof.
  apply (put_status_then_me shape_statusValidation "u-rec"
           [("applicationId", JStr "app-2"); ("status", JStr "Interviewing")]
           ex_store_full ex_recruiter
           (jobApplication.mk "app-2" "u-cand" (Some "job-2") (Some Applied) true
              "cv.pdf" "Rocq" "3 years" "BSc" 150)
           "app-2" Interviewing ex_candidate); try reflexivity.
  - split; [simpl; auto | reflexivity].
  - simpl; auto.
  - apply ex_store_full_keys.
  - split; [simpl; auto | reflexivity].
Defined.
